(** * The [encodings] package: name normalisation and codec search

    A shallow embedding of [encodings/__init__.py] (CPython 3.12), read
    from the compiled module
    [evenv/Lib/encodings/__pycache__/__init__.cpython-312.pyc]:
    [normalize_encoding], [search_function] and the win32 hook
    [_alias_mbcs].

    Python strings are sequences of Unicode code points; they are lists of
    [N] here.  The module-level dictionaries [_cache] and [_aliases] are
    finite maps threaded through an explicit state, together with a log of
    the imports and factory calls the search performs. *)

From Stdlib Require Import NArith Ascii String List Lia.
From Stdlib.Strings Require Import Byte.
From Stdlib Require Import Decimal DecimalString.
From Stdlib Require DecimalN.
From stdpp Require Import base option list gmap.
Import ListNotations.

Local Open Scope N_scope.

(** ** Strings *)

(** A Python [str]: its code points. *)
Abbreviation pystr := (list N).

(** The code points of an ASCII literal. *)
Definition py (s : string) : pystr :=
  List.map (fun a => N_of_ascii a) (list_ascii_of_string s).

Definition DOT : N := 46.
Definition UNDERSCORE : N := 95.

(** [c.isascii()] *)
Definition isascii (c : N) : bool := c <? 128.

(** [str.isalnum] on the ASCII range: digits and the two letter cases. *)
Definition ascii_isalnum (c : N) : bool :=
  ((48 <=? c) && (c <=? 57)) || ((65 <=? c) && (c <=? 90))
  || ((97 <=? c) && (c <=? 122)).

(** [str.isalnum] on the Latin-1 range (code points below 256), as the
    Unicode database of the interpreter has it: besides the ASCII rows,
    the ordinal indicators, the superscript digits, the micro sign, the
    vulgar fractions and the accented letters.  Rows above U+00FF are not
    listed; the examples below stay under that bound. *)
Definition isalnum_latin1 (c : N) : bool :=
  ascii_isalnum c
  || (c =? 170) || (c =? 178) || (c =? 179) || (c =? 181) || (c =? 185)
  || (c =? 186) || ((188 <=? c) && (c <=? 190))
  || ((192 <=? c) && (c <=? 214)) || ((216 <=? c) && (c <=? 246))
  || ((248 <=? c) && (c <=? 255)).

(** ** Exceptions and results *)

(** The two messages of [CodecRegistryError]. *)
Inductive registry_msg : Type :=
| FailedToRegister      (* module "%s" (%s) failed to register *)
| IncompatibleCodecs.   (* incompatible codecs in module "%s" (%s) *)

Inductive exn : Type :=
| UnicodeDecodeError
| ImportError
| AttributeError
| TypeError
| IndexError
| CodecRegistryError (msg : registry_msg) (mod_name mod_file : pystr)
| OtherError (name : pystr).   (* an exception of any other class *)

Inductive result (A : Type) : Type :=
| Return (a : A)
| Raise (e : exn).
Arguments Return {A} a.
Arguments Raise {A} e.

(** The argument of [normalize_encoding]: a [str] or a [bytes] object. *)
Inductive pyname : Type :=
| Str (s : pystr)
| Bytes (b : list byte).

(** [str(b, "ascii")]: bytes above 127 raise [UnicodeDecodeError]. *)
Definition str_ascii (b : list byte) : result pystr :=
  let cs := List.map Byte.to_N b in
  if forallb isascii cs then Return cs else Raise UnicodeDecodeError.

(** ** normalize_encoding *)

Section Normalize.

(** [str.isalnum] of the running interpreter. *)
Variable isalnum : N -> bool.

Definition nonempty (chars : pystr) : bool :=
  match chars with [] => false | _ :: _ => true end.

(** One iteration of [for c in encoding], on the pair [(chars, punct)]. *)
Definition normalize_step (st : pystr * bool) (c : N) : pystr * bool :=
  let '(chars, punct) := st in
  if isalnum c || (c =? DOT) then
    let chars :=
      if punct && nonempty chars then chars ++ [UNDERSCORE] else chars in
    let chars := if isascii c then chars ++ [c] else chars in
    (chars, false)
  else
    (chars, true).

Definition normalize_loop (st : pystr * bool) (encoding : pystr)
  : pystr * bool :=
  fold_left normalize_step encoding st.

(** The body after the [bytes] test: [''.join(chars)]. *)
Definition normalize_str (encoding : pystr) : pystr :=
  fst (normalize_loop ([], false) encoding).

Definition normalize_encoding (encoding : pyname) : result pystr :=
  match encoding with
  | Str s => Return (normalize_str s)
  | Bytes b =>
      match str_ascii b with
      | Return s => Return (normalize_str s)
      | Raise e => Raise e
      end
  end.

(** [chars] is a fixed point of the loop. *)
Definition stable (chars : pystr) : Prop :=
  normalize_loop ([], false) chars = (chars, false).

End Normalize.

(** What [normalize_encoding] may put in its result: an ASCII
    alphanumeric character, the dot or the underscore; ASCII in each
    case. *)
Definition output_char (isalnum : N -> bool) (c : N) : Prop :=
  ((isascii c = true /\ isalnum c = true) \/ c = DOT \/ c = UNDERSCORE)
  /\ isascii c = true.

(** A character the loop treats as punctuation. *)
Definition is_punct (isalnum : N -> bool) (c : N) : bool :=
  negb (isalnum c || (c =? DOT)).


(** ** Python values, modules and the interpreter state *)

(** The objects a registry entry is made of. *)
Inductive pyobj : Type :=
| PyNone
| PyCallable (id : N)
| PyStr (s : pystr)
| PyObject (id : N).        (* any other, non-callable, object *)

Definition callable (o : pyobj) : bool :=
  match o with PyCallable _ => true | _ => false end.

Definition is_None (o : pyobj) : bool :=
  match o with PyNone => true | _ => false end.

(** What a module's [getregentry()] returns: an instance of
    [codecs.CodecInfo], or a plain tuple. *)
Inductive regentry : Type :=
| CodecInfo (members : list pyobj)
| PyTuple (items : list pyobj).

(** A codec module: its [__name__] and [__file__], and the two optional
    attributes the search uses.  An attribute that is [None] here is
    missing from the module ([AttributeError] on the attribute read).
    An attribute that is present is a function: what is recorded is
    what calling it does, return a value or raise.  [getaliases()]
    returns, as the package documents it, a sequence of encoding name
    strings. *)
Record pymodule : Type := {
  m_name : pystr;
  m_file : pystr;
  m_getregentry : option (result regentry);
  m_getaliases : option (result (list pystr))
}.

(** What the search does to the world outside its two dictionaries. *)
Inductive event : Type :=
| EvImport (fullname : pystr)
| EvGetregentry (mod_name : pystr)
| EvGetaliases (mod_name : pystr).

(** The module globals [_cache] and [_aliases], and the log of events in
    the order they happen.  A key of [_cache] bound to [None] is a cached
    miss. *)
Record state : Type := {
  _cache : gmap pystr (option regentry);
  _aliases : gmap pystr pystr;
  log : list event
}.

(** State and exceptions. *)
Definition M (A : Type) : Type := state -> result A * state.

Definition ret {A} (a : A) : M A := fun st => (Return a, st).

Definition raise {A} (e : exn) : M A := fun st => (Raise e, st).

Definition bind {A B} (m : M A) (k : A -> M B) : M B :=
  fun st =>
    match m st with
    | (Return a, st') => k a st'
    | (Raise e, st') => (Raise e, st')
    end.

Notation "'let*' x ':=' m 'in' k" := (bind m (fun x => k))
  (at level 10, x name, m at level 100, k at level 200).
Notation "m ';;' k" := (bind m (fun _ => k))
  (at level 100, k at level 200, right associativity).

Definition lift {A} (r : result A) : M A := fun st => (r, st).

(** The state after some more events. *)
Definition add_log (st : state) (evs : list event) : state :=
  {| _cache := _cache st; _aliases := _aliases st; log := log st ++ evs |}.

Definition emit (e : event) : M unit :=
  fun st => (Return tt, add_log st [e]).

(** [_cache[key] = value] *)
Definition cache_store (key : pystr) (value : option regentry) : M unit :=
  fun st => (Return tt,
             {| _cache := <[key := value]> (_cache st);
                _aliases := _aliases st; log := log st |}).

(** [_aliases[key] = value] *)
Definition aliases_store (key value : pystr) : M unit :=
  fun st => (Return tt,
             {| _cache := _cache st;
                _aliases := <[key := value]> (_aliases st);
                log := log st |}).

(** [a or b] on the results of two [dict.get] calls: the first when it is
    truthy (a non-empty string), the second otherwise. *)
Definition py_or (a b : option pystr) : option pystr :=
  match a with
  | Some s => if nonempty s then Some s else b
  | None => b
  end.

(** [s.replace(old, new)] for one-character [old] and [new]. *)
Definition replace (old new : N) (s : pystr) : pystr :=
  List.map (fun c => if c =? old then new else c) s.

(** [s.split(".", 1)[1]]: the text after the first dot; without a dot the
    list has one element and the subscript raises [IndexError]. *)
Fixpoint split_dot_1 (s : pystr) : result pystr :=
  match s with
  | [] => Raise IndexError
  | c :: r => if c =? DOT then Return r else split_dot_1 r
  end.

(** [entry[i]]; every use below is guarded by a test on [len(entry)]. *)
Definition item (entry : list pyobj) (i : nat) : pyobj := nth i entry PyNone.

(** [codecs.CodecInfo] applied to the unpacked tuple: the constructor of
    the interpreter's [codecs] module takes [encode], [decode] and up to five more
    positional arguments defaulting to [None]. *)
Definition CodecInfo_new (args : list pyobj) : result regentry :=
  let n := length args in
  if ((2 <=? n) && (n <=? 7))%nat
  then Return (CodecInfo (args ++ repeat PyNone (7 - n)))
  else Raise TypeError.

(** The block under [if not isinstance(entry, codecs.CodecInfo)]. *)
Definition check_entry (mod_ : pymodule) (entry : regentry) : result regentry :=
  match entry with
  | CodecInfo _ => Return entry
  | PyTuple entry =>
      let len := length entry in
      if negb ((4 <=? len) && (len <=? 7))%nat then
        Raise (CodecRegistryError FailedToRegister (m_name mod_) (m_file mod_))
      else if negb (callable (item entry 0))
           || negb (callable (item entry 1))
           || (negb (is_None (item entry 2)) && negb (callable (item entry 2)))
           || (negb (is_None (item entry 3)) && negb (callable (item entry 3)))
           || ((4 <? len)%nat && negb (is_None (item entry 4))
               && negb (callable (item entry 4)))
           || ((5 <? len)%nat && negb (is_None (item entry 5))
               && negb (callable (item entry 5)))
      then
        Raise (CodecRegistryError IncompatibleCodecs (m_name mod_) (m_file mod_))
      else if (len <? 7)%nat || is_None (item entry 6) then
        match split_dot_1 (m_name mod_) with
        | Return tail =>
            CodecInfo_new (entry ++ repeat PyNone (6 - len) ++ [PyStr tail])
        | Raise e => Raise e
        end
      else CodecInfo_new entry
  end.

(** ** search_function *)

Section Search.

(** [str.isalnum] of the running interpreter. *)
Variable isalnum : N -> bool.

(** The import system: the module a full dotted name loads, or the
    exception the import raises. *)
Variable import_module : pystr -> result pymodule.

(** [__import__('encodings.' + modname, fromlist=_import_tail, level=0)]
    under [try ... except ImportError]: [None] when the import raised
    [ImportError]; any other exception propagates. *)
Definition try_import (modname : pystr) : M (option pymodule) :=
  let fullname := py "encodings." ++ modname in
  emit (EvImport fullname) ;;
  match import_module fullname with
  | Return mod_ => ret (Some mod_)
  | Raise ImportError => ret None
  | Raise e => raise e
  end.

(** [for modname in modnames: ... else: mod = None].  The result is the
    candidate that loaded, with its module. *)
Fixpoint import_first (modnames : list pystr)
  : M (option (pystr * pymodule)) :=
  match modnames with
  | [] => ret None
  | modname :: rest =>
      if negb (nonempty modname) || existsb (N.eqb DOT) modname then
        import_first rest
      else
        let* loaded := try_import modname in
        match loaded with
        | Some mod_ => ret (Some (modname, mod_))
        | None => import_first rest
        end
  end.

(** The candidate module names, in the order they are tried. *)
Definition modnames_of (aliases : gmap pystr pystr) (norm_encoding : pystr)
  : list pystr :=
  let aliased_encoding :=
    py_or (aliases !! norm_encoding)
          (aliases !! replace DOT UNDERSCORE norm_encoding) in
  match aliased_encoding with
  | Some aliased_encoding => [aliased_encoding; norm_encoding]
  | None => [norm_encoding]
  end.

(** [for alias in codecaliases: if alias not in _aliases: ...], over the
    sequence of strings [getaliases()] returned. *)
Fixpoint register_aliases (codecaliases : list pystr) (modname : pystr)
  : M unit :=
  match codecaliases with
  | [] => ret tt
  | alias :: rest =>
      (fun st =>
         match _aliases st !! alias with
         | None => aliases_store alias modname st
         | Some _ => ret tt st
         end) ;;
      register_aliases rest modname
  end.

Definition search_function (encoding : pystr) : M (option regentry) :=
  fun st =>
    match _cache st !! encoding with
    | Some entry => ret entry st
    | None =>
        (let* norm_encoding :=
           lift (normalize_encoding isalnum (Str encoding)) in
         let* loaded :=
           (fun st => import_first (modnames_of (_aliases st) norm_encoding) st) in
         match loaded with
         | Some (modname, mod_) =>
             match m_getregentry mod_ with
             | Some getregentry =>
                 emit (EvGetregentry (m_name mod_)) ;;
                 (* entry = getregentry(), outside every try *)
                 let* entry := lift getregentry in
                 let* entry := lift (check_entry mod_ entry) in
                 cache_store encoding (Some entry) ;;
                 match m_getaliases mod_ with
                 | Some getaliases =>
                     emit (EvGetaliases (m_name mod_)) ;;
                     (* codecaliases = mod.getaliases(), under
                        except AttributeError: pass *)
                     match getaliases with
                     | Return codecaliases =>
                         register_aliases codecaliases modname ;;
                         ret (Some entry)
                     | Raise AttributeError => ret (Some entry)
                     | Raise e => raise e
                     end
                 | None => ret (Some entry)
                 end
             | None =>
                 cache_store encoding None ;; ret None
             end
         | None =>
             cache_store encoding None ;; ret None
         end) st
    end.

End Search.

(** [later st st']: the state [st'] is reached from [st] by any number of
    calls of [search_function], with any names and whatever the import
    system holds at each call. *)
Inductive later : state -> state -> Prop :=
| later_refl st : later st st
| later_step st st1 st2 isalnum imp encoding res :
    later st st1 ->
    search_function isalnum imp encoding st1 = (res, st2) ->
    later st st2.

(** ** The win32 hook *)

(** [str(n)] for a non-negative integer. *)
Definition str_of_int (n : N) : pystr :=
  py (NilEmpty.string_of_uint (N.to_uint n)).

Section Win32.

(** [import _winapi]: the value [_winapi.GetACP()] returns, or [None]
    when the import raises [ImportError]. *)
Variable _winapi : option N.

(** [import encodings.mbcs]: the module, or [None] on [ImportError]. *)
Variable encodings_mbcs : option pymodule.

(** The whole body is under [try ... except ImportError: pass], the call
    [encodings.mbcs.getregentry()] included. *)
Definition _alias_mbcs (encoding : pystr) : result (option regentry) :=
  match _winapi with
  | Some GetACP =>
      let ansi_code_page := py "cp" ++ str_of_int GetACP in
      if bool_decide (encoding = ansi_code_page) then
        match encodings_mbcs with
        | Some mbcs =>
            match m_getregentry mbcs with
            | Some (Return getregentry) => Return (Some getregentry)
            | Some (Raise ImportError) => Return None
            | Some (Raise e) => Raise e
            | None => Raise AttributeError
            end
        | None => Return None
        end
      else Return None
  | None => Return None
  end.

End Win32.

(** The functions passed to [codecs.register] when the module is
    imported, in registration order. *)
Inductive resolver : Type := Search_function | Alias_mbcs.

Definition registered (platform : pystr) : list resolver :=
  Search_function ::
  (if bool_decide (platform = py "win32") then [Alias_mbcs] else []).

(** ** Modules and states used in the examples *)

(** A codec module whose factory returns a [CodecInfo]. *)
Definition utf_8 : pymodule :=
  {| m_name := py "encodings.utf_8";
     m_file := py "encodings/utf_8.py";
     m_getregentry :=
       Some (Return (CodecInfo [PyCallable 0; PyCallable 1; PyCallable 2;
                                PyCallable 3; PyCallable 4; PyCallable 5;
                                PyStr (py "utf-8")]));
     m_getaliases := None |}.

(** A codec module in the old style: the factory returns the 4-tuple
    (encode, decode, streamreader, streamwriter). *)
Definition legacy : pymodule :=
  {| m_name := py "encodings.legacy";
     m_file := py "encodings/legacy.py";
     m_getregentry :=
       Some (Return (PyTuple [PyCallable 0; PyCallable 1; PyNone; PyNone]));
     m_getaliases := None |}.

(** A module of the package that is not a codec: no [getregentry]. *)
Definition plain : pymodule :=
  {| m_name := py "encodings.plain";
     m_file := py "encodings/plain.py";
     m_getregentry := None;
     m_getaliases := None |}.

(** A module whose factory returns a 6-tuple with a non-callable
    [encode]. *)
Definition broken : pymodule :=
  {| m_name := py "encodings.broken";
     m_file := py "encodings/broken.py";
     m_getregentry :=
       Some (Return (PyTuple [PyObject 0; PyCallable 1; PyNone; PyNone;
                              PyNone; PyNone]));
     m_getaliases := None |}.

(** A module whose factory returns a 3-tuple. *)
Definition short : pymodule :=
  {| m_name := py "encodings.short";
     m_file := py "encodings/short.py";
     m_getregentry :=
       Some (Return (PyTuple [PyCallable 0; PyCallable 1; PyNone]));
     m_getaliases := None |}.

(** A module whose factory returns a [CodecInfo] built around a
    non-callable [encode]. *)
Definition unchecked : pymodule :=
  {| m_name := py "encodings.unchecked";
     m_file := py "encodings/unchecked.py";
     m_getregentry :=
       Some (Return (CodecInfo [PyObject 0; PyCallable 1; PyNone; PyNone;
                                PyNone; PyNone; PyStr (py "unchecked")]));
     m_getaliases := None |}.

Definition mbcs : pymodule :=
  {| m_name := py "encodings.mbcs";
     m_file := py "encodings/mbcs.py";
     m_getregentry :=
       Some (Return (CodecInfo [PyCallable 10; PyCallable 11; PyCallable 12;
                                PyCallable 13; PyCallable 14; PyCallable 15;
                                PyStr (py "mbcs")]));
     m_getaliases := None |}.

(** An import system holding the modules above. *)
Definition site_modules (fullname : pystr) : result pymodule :=
  if bool_decide (fullname = py "encodings.utf_8") then Return utf_8
  else if bool_decide (fullname = py "encodings.legacy") then Return legacy
  else if bool_decide (fullname = py "encodings.plain") then Return plain
  else if bool_decide (fullname = py "encodings.broken") then Return broken
  else if bool_decide (fullname = py "encodings.short") then Return short
  else if bool_decide (fullname = py "encodings.unchecked")
       then Return unchecked
  else Raise ImportError.

(** The state right after the package is imported, with the given alias
    table. *)
Definition initial (aliases : list (pystr * pystr)) : state :=
  {| _cache := ∅; _aliases := list_to_map aliases; log := [] |}.

(** The candidates [import_first] passes to the import system. *)
Definition usable (modname : pystr) : bool :=
  nonempty modname && negb (existsb (N.eqb DOT) modname).

(** ** Vocabulary of the further properties *)

(** A character the loop appends as it is: alphanumeric or dot, and
    ASCII. *)
Definition kept (isalnum : N -> bool) (c : N) : bool :=
  (isalnum c || (c =? DOT)) && isascii c.

(** No two neighbours in the list are both underscores. *)
Fixpoint no_adjacent (s : pystr) : bool :=
  match s with
  | a :: r =>
      match r with
      | b :: _ => negb ((a =? UNDERSCORE) && (b =? UNDERSCORE))
      | [] => true
      end && no_adjacent r
  | [] => true
  end.

(** Two characters that are equal, or are both punctuation. *)
Definition same_up_to_punct (isalnum : N -> bool) (c c' : N) : Prop :=
  c = c' \/ (is_punct isalnum c = true /\ is_punct isalnum c' = true).

(** [None] or a callable: what the optional members of an entry may be. *)
Definition optional_callable (o : pyobj) : bool := is_None o || callable o.

(** The state after [_cache[key] = value]. *)
Definition with_cache (st : state) (key : pystr) (value : option regentry)
  : state :=
  {| _cache := <[key := value]> (_cache st);
     _aliases := _aliases st; log := log st |}.

(** What the alias loop makes of the table [old] for the declared
    aliases [l]: bound names keep their target, unbound declared names
    point to [modname], nothing else is added. *)
Definition registers (old : gmap pystr pystr) (l : list pystr)
    (modname : pystr) (new : gmap pystr pystr) : Prop :=
  (forall a v, old !! a = Some v -> new !! a = Some v)
  /\ (forall a, old !! a = None -> In a l -> new !! a = Some modname)
  /\ (forall a, old !! a = None -> ~ In a l -> new !! a = None).

Definition is_import (ev : event) : bool :=
  match ev with EvImport _ => true | _ => false end.

(** The event of importing candidate [m]. *)
Definition import_of (m : pystr) : event := EvImport (py "encodings." ++ m).

(** A codec module that declares aliases. *)
Definition iso8859_1 : pymodule :=
  {| m_name := py "encodings.iso8859_1";
     m_file := py "encodings/iso8859_1.py";
     m_getregentry :=
       Some (Return (PyTuple [PyCallable 0; PyCallable 1; PyNone; PyNone;
                              PyCallable 4; PyCallable 5]));
     m_getaliases := Some (Return [py "latin_1"; py "l1"; py "latin_1"]) |}.

(** A codec module whose [getaliases()] raises. *)
Definition noisy : pymodule :=
  {| m_name := py "encodings.noisy";
     m_file := py "encodings/noisy.py";
     m_getregentry :=
       Some (Return (PyTuple [PyCallable 0; PyCallable 1; PyNone; PyNone]));
     m_getaliases := Some (Raise (OtherError (py "ValueError"))) |}.

(** A module whose [getregentry()] raises [ImportError]. *)
Definition lazy_codec : pymodule :=
  {| m_name := py "encodings.lazy_codec";
     m_file := py "encodings/lazy_codec.py";
     m_getregentry := Some (Raise ImportError);
     m_getaliases := None |}.

(** An import system holding these three modules. *)
Definition alias_modules (fullname : pystr) : result pymodule :=
  if bool_decide (fullname = py "encodings.iso8859_1") then Return iso8859_1
  else if bool_decide (fullname = py "encodings.noisy") then Return noisy
  else if bool_decide (fullname = py "encodings.lazy_codec")
       then Return lazy_codec
  else Raise ImportError.

(** ** Properties of normalize_encoding *)

Section NormalizeFacts.

Variable isalnum : N -> bool.

(** On ASCII code points [str.isalnum] is the ASCII table. *)
Hypothesis isalnum_ascii :
  forall c, isascii c = true -> isalnum c = ascii_isalnum c.

Lemma normalize_loop_app st a b :
  normalize_loop isalnum st (a ++ b)
  = normalize_loop isalnum (normalize_loop isalnum st a) b.
Proof. apply fold_left_app. Qed.

Lemma underscore_is_punct : isalnum UNDERSCORE || (UNDERSCORE =? DOT) = false.
Proof. rewrite isalnum_ascii by reflexivity. reflexivity. Qed.

Lemma retained_isascii c :
  (isalnum c = true -> isascii c = true) ->
  isalnum c || (c =? DOT) = true -> isascii c = true.
Proof.
  intros Hc H. apply orb_true_iff in H as [H | H]; [auto |].
  apply N.eqb_eq in H. subst c. reflexivity.
Qed.

Lemma normalize_step_punct chars punct c :
  isalnum c || (c =? DOT) = false ->
  normalize_step isalnum (chars, punct) c = (chars, true).
Proof. intros H. cbn [normalize_step]. rewrite H. reflexivity. Qed.

Lemma normalize_step_keep chars punct c :
  isalnum c || (c =? DOT) = true -> isascii c = true ->
  normalize_step isalnum (chars, punct) c
  = ((if punct && nonempty chars then chars ++ [UNDERSCORE] else chars)
       ++ [c], false).
Proof. intros H Ha. cbn [normalize_step]. rewrite H, Ha. reflexivity. Qed.

Lemma normalize_step_stable chars punct c :
  (isalnum c = true -> isascii c = true) ->
  stable isalnum chars ->
  stable isalnum (fst (normalize_step isalnum (chars, punct) c)).
Proof.
  intros Hc Hst. unfold stable in *.
  destruct (isalnum c || (c =? DOT)) eqn:Hkeep.
  - pose proof (retained_isascii c Hc Hkeep) as Hasc.
    rewrite (normalize_step_keep _ _ _ Hkeep Hasc). cbn [fst].
    destruct (punct && nonempty chars) eqn:Hsep.
    + apply andb_true_iff in Hsep as [_ Hne].
      rewrite !normalize_loop_app, Hst. cbn [normalize_loop fold_left].
      rewrite (normalize_step_punct _ _ _ underscore_is_punct).
      rewrite (normalize_step_keep _ _ _ Hkeep Hasc), Hne. reflexivity.
    + rewrite normalize_loop_app, Hst. cbn [normalize_loop fold_left].
      rewrite (normalize_step_keep _ _ _ Hkeep Hasc). reflexivity.
  - rewrite (normalize_step_punct _ _ _ Hkeep). exact Hst.
Qed.

Lemma normalize_loop_stable s : forall chars punct,
  Forall (fun c => isalnum c = true -> isascii c = true) s ->
  stable isalnum chars ->
  stable isalnum (fst (normalize_loop isalnum (chars, punct) s)).
Proof.
  induction s as [| c s IH]; intros chars punct Hs Hst; [exact Hst |].
  inversion Hs as [| ? ? Hc Hs']; subst.
  cbn [normalize_loop fold_left].
  pose proof (normalize_step_stable chars punct c Hc Hst) as Hst'.
  destruct (normalize_step isalnum (chars, punct) c) as [chars' punct'].
  apply (IH chars' punct' Hs' Hst').
Qed.

End NormalizeFacts.

Lemma normalize_loop_output isalnum s : forall chars punct,
  Forall (output_char isalnum) chars ->
  Forall (output_char isalnum) (fst (normalize_loop isalnum (chars, punct) s)).
Proof.
  induction s as [| c s IH]; intros chars punct Hch; [exact Hch |].
  cbn [normalize_loop fold_left normalize_step].
  destruct (isalnum c || (c =? DOT)) eqn:Hkeep; [| apply IH, Hch].
  assert (Hsep : Forall (output_char isalnum)
            (if punct && nonempty chars then chars ++ [UNDERSCORE] else chars)).
  { destruct (punct && nonempty chars); [| exact Hch].
    apply Forall_app_2; [exact Hch |].
    constructor; [| constructor].
    split; [right; right; reflexivity | reflexivity]. }
  destruct (isascii c) eqn:Hasc; apply IH; [| exact Hsep].
  apply Forall_app_2; [exact Hsep |].
  constructor; [| constructor]. split; [| exact Hasc].
  apply orb_true_iff in Hkeep as [H | H].
  - left. split; [exact Hasc | exact H].
  - right; left. apply N.eqb_eq, H.
Qed.

(** Every retained character comes from the input, unchanged; the only
    character the loop adds is the underscore. *)
Lemma normalize_loop_keeps isalnum s : forall chars punct c,
  In c (fst (normalize_loop isalnum (chars, punct) s)) ->
  In c chars \/ In c s \/ c = UNDERSCORE.
Proof.
  induction s as [| d s IH]; intros chars punct c Hin; [left; exact Hin |].
  cbn [normalize_loop fold_left normalize_step] in Hin.
  destruct (isalnum d || (d =? DOT)).
  - destruct (punct && nonempty chars), (isascii d);
      apply IH in Hin as [Hin | [Hin | Hin]]; auto using in_cons;
      repeat (apply in_app_or in Hin as [Hin | Hin]); auto;
      destruct Hin as [<- | []]; auto using in_eq.
  - apply IH in Hin as [Hin | [Hin | Hin]]; auto using in_cons.
Qed.

Lemma normalize_loop_ext isalnum isalnum' s : forall st,
  Forall (fun c => isalnum c = isalnum' c) s ->
  normalize_loop isalnum st s = normalize_loop isalnum' st s.
Proof.
  induction s as [| c s IH]; intros [chars punct] Hs; [reflexivity |].
  inversion Hs as [| ? ? Hc Hs']; subst.
  cbn [normalize_loop fold_left normalize_step]. rewrite Hc.
  apply IH, Hs'.
Qed.

(** On an ASCII name only the ASCII rows of [str.isalnum] matter. *)
Lemma normalize_str_ascii isalnum s :
  (forall c, isascii c = true -> isalnum c = ascii_isalnum c) ->
  forallb isascii s = true ->
  normalize_str isalnum s = normalize_str ascii_isalnum s.
Proof.
  intros Hal Hs. unfold normalize_str. f_equal.
  apply normalize_loop_ext, List.Forall_forall. intros c Hc.
  apply Hal. apply (proj1 (forallb_forall _ _) Hs), Hc.
Qed.

Lemma isalnum_latin1_ascii c :
  isascii c = true -> isalnum_latin1 c = ascii_isalnum c.
Proof.
  unfold isascii, isalnum_latin1. intros H. apply N.ltb_lt in H.
  repeat match goal with
         | |- context [?a =? ?b] =>
             replace (a =? b) with false by (symmetry; apply N.eqb_neq; lia)
         | |- context [(?a <=? c) && _] =>
             replace (a <=? c) with false by (symmetry; apply N.leb_gt; lia)
         end.
  cbn [andb]. rewrite !orb_false_r. reflexivity.
Qed.

Lemma normalize_loop_punct isalnum s : forall chars punct,
  Forall (fun c => is_punct isalnum c = true) s ->
  fst (normalize_loop isalnum (chars, punct) s) = chars.
Proof.
  induction s as [| c s IH]; intros chars punct Hs; [reflexivity |].
  inversion Hs as [| ? ? Hc Hs']; subst.
  cbn [normalize_loop fold_left normalize_step].
  apply negb_true_iff in Hc. rewrite Hc. apply IH, Hs'.
Qed.

(** C10: for every input string the call returns, and every character of
    the result is an ASCII alphanumeric character, the dot or the
    underscore; none is outside ASCII, whatever [str.isalnum] says of the
    characters above U+007F. *)
Theorem normalize_encoding_output_ascii (isalnum : N -> bool) (s : pystr) :
  exists out,
    normalize_encoding isalnum (Str s) = Return out
    /\ Forall (output_char isalnum) out.
Proof.
  exists (normalize_str isalnum s). split; [reflexivity |].
  apply normalize_loop_output. constructor.
Qed.

(** The same for a [bytes] name that decodes. *)
Lemma normalize_encoding_bytes_output isalnum b out :
  normalize_encoding isalnum (Bytes b) = Return out ->
  Forall (output_char isalnum) out.
Proof.
  cbn [normalize_encoding]. destruct (str_ascii b); [| discriminate].
  intros [= <-]. apply normalize_loop_output. constructor.
Qed.

(** C8, as the code has it: normalising twice is normalising once for
    every name whose alphanumeric characters are all ASCII, hence for
    every ASCII name. *)
Theorem normalize_encoding_idempotent (isalnum : N -> bool) (s : pystr) :
  (forall c, isascii c = true -> isalnum c = ascii_isalnum c) ->
  Forall (fun c => isalnum c = true -> isascii c = true) s ->
  normalize_encoding isalnum (Str (normalize_str isalnum s))
  = normalize_encoding isalnum (Str s).
Proof.
  intros Hal Hs. cbn [normalize_encoding]. f_equal.
  pose proof (normalize_loop_stable isalnum Hal s [] false Hs eq_refl) as H.
  unfold stable in H. fold (normalize_str isalnum s) in H.
  unfold normalize_str at 1. rewrite H. reflexivity.
Qed.

Lemma normalize_encoding_idempotent_witness :
  normalize_encoding isalnum_latin1
    (Str (normalize_str isalnum_latin1 (py "UTF-8 (strict)")))
  = normalize_encoding isalnum_latin1 (Str (py "UTF-8 (strict)")).
Proof.
  apply (normalize_encoding_idempotent isalnum_latin1 (py "UTF-8 (strict)")
           isalnum_latin1_ascii).
  repeat (constructor; [intros _; reflexivity |]). constructor.
Defined.

(** C8, refuted as stated: on "a-é" the loop answers "a_", and on "a_" it
    answers "a". *)
Lemma normalize_encoding_not_idempotent :
  normalize_encoding isalnum_latin1
    (Str (normalize_str isalnum_latin1 [97; 45; 233]))
  <> normalize_encoding isalnum_latin1 (Str [97; 45; 233]).
Proof. vm_compute. discriminate. Qed.

(** C5, as the code has it: the comparison is insensitive to punctuation
    but not to case.  "UTF-8" becomes "UTF_8" and "utf_8" stays "utf_8";
    "utf-8" and "utf_8" get the same normalized name; and no character of
    a result is a changed copy of an input character, so nothing is ever
    lower-cased. *)
Theorem normalize_encoding_keeps_case (isalnum : N -> bool) :
  (forall c, isascii c = true -> isalnum c = ascii_isalnum c) ->
  normalize_encoding isalnum (Str (py "UTF-8")) = Return (py "UTF_8")
  /\ normalize_encoding isalnum (Str (py "utf_8")) = Return (py "utf_8")
  /\ normalize_encoding isalnum (Str (py "utf-8"))
     = normalize_encoding isalnum (Str (py "utf_8"))
  /\ (forall s c, In c (normalize_str isalnum s) -> In c s \/ c = UNDERSCORE).
Proof.
  intros Hal. cbn [normalize_encoding].
  rewrite !(normalize_str_ascii isalnum _ Hal) by reflexivity.
  repeat split.
  intros s c Hin. apply normalize_loop_keeps in Hin as [[] | H]. exact H.
Qed.

Lemma normalize_encoding_keeps_case_witness :
  normalize_encoding isalnum_latin1 (Str (py "UTF-8")) = Return (py "UTF_8")
  /\ normalize_encoding isalnum_latin1 (Str (py "utf_8"))
     = Return (py "utf_8")
  /\ normalize_encoding isalnum_latin1 (Str (py "utf-8"))
     = normalize_encoding isalnum_latin1 (Str (py "utf_8"))
  /\ (forall s c,
        In c (normalize_str isalnum_latin1 s) -> In c s \/ c = UNDERSCORE).
Proof.
  exact (normalize_encoding_keeps_case isalnum_latin1 isalnum_latin1_ascii).
Defined.

(** C5, refuted as stated: "UTF-8" and "utf_8" get different normalized
    names. *)
Lemma normalize_encoding_case_sensitive :
  normalize_encoding isalnum_latin1 (Str (py "UTF-8"))
  <> normalize_encoding isalnum_latin1 (Str (py "utf_8")).
Proof. vm_compute. discriminate. Qed.

Lemma normalize_step_cases isalnum chars punct c :
  normalize_step isalnum (chars, punct) c
  = if isalnum c || (c =? DOT) then
      ((if punct && nonempty chars then chars ++ [UNDERSCORE] else chars)
         ++ (if isascii c then [c] else []), false)
    else (chars, true).
Proof.
  cbn [normalize_step].
  destruct (isalnum c || (c =? DOT)), (isascii c);
    rewrite ?app_nil_r; reflexivity.
Qed.

Lemma normalize_loop_cons isalnum st c s :
  normalize_loop isalnum st (c :: s)
  = normalize_loop isalnum (normalize_step isalnum st c) s.
Proof. reflexivity. Qed.

Lemma retained_not_underscore isalnum c :
  isalnum UNDERSCORE = false ->
  isalnum c || (c =? DOT) = true -> (c =? UNDERSCORE) = false.
Proof.
  intros H95 Hkeep. destruct (c =? UNDERSCORE) eqn:E; [| reflexivity].
  apply N.eqb_eq in E. subst c. rewrite H95 in Hkeep. discriminate.
Qed.

Lemma isalnum_underscore isalnum :
  (forall c, isascii c = true -> isalnum c = ascii_isalnum c) ->
  isalnum UNDERSCORE = false.
Proof. intros H. rewrite H by reflexivity. reflexivity. Qed.

Lemma normalize_loop_length isalnum s : forall chars punct,
  (length (fst (normalize_loop isalnum (chars, punct) s))
   + (if snd (normalize_loop isalnum (chars, punct) s) then 1 else 0)
   <= length chars + (if punct then 1 else 0) + length s)%nat.
Proof.
  induction s as [| c s IH]; intros chars punct; [cbn; lia |].
  rewrite normalize_loop_cons, normalize_step_cases.
  destruct (isalnum c || (c =? DOT));
    [destruct punct, chars as [| x r], (isascii c) | destruct punct];
    (eapply Nat.le_trans; [apply IH |]);
    cbn [andb nonempty]; rewrite ?length_app; cbn [length]; lia.
Qed.

Lemma normalize_loop_filter isalnum s :
  isalnum UNDERSCORE = false ->
  forall chars punct,
    List.filter (fun c => negb (c =? UNDERSCORE))
      (fst (normalize_loop isalnum (chars, punct) s))
    = List.filter (fun c => negb (c =? UNDERSCORE)) chars
        ++ List.filter (kept isalnum) s.
Proof.
  intros H95. induction s as [| c s IH]; intros chars punct.
  { cbn. rewrite app_nil_r. reflexivity. }
  rewrite normalize_loop_cons, normalize_step_cases. cbn [List.filter].
  assert (Hk : kept isalnum c = (isalnum c || (c =? DOT)) && isascii c)
    by reflexivity.
  rewrite Hk. clear Hk.
  destruct (isalnum c || (c =? DOT)) eqn:Hkeep; [| apply IH].
  rewrite IH, !List.filter_app.
  assert (Hsep : List.filter (fun c => negb (c =? UNDERSCORE))
                   (if punct && nonempty chars
                    then chars ++ [UNDERSCORE] else chars)
                 = List.filter (fun c => negb (c =? UNDERSCORE)) chars).
  { destruct (punct && nonempty chars); [| reflexivity].
    rewrite List.filter_app. cbn. apply app_nil_r. }
  rewrite Hsep. destruct (isascii c); cbn [andb List.filter].
  - rewrite (retained_not_underscore isalnum c H95 Hkeep). cbn [negb].
    rewrite <- app_assoc. reflexivity.
  - rewrite app_nil_r. reflexivity.
Qed.

Lemma normalize_loop_head isalnum s :
  isalnum UNDERSCORE = false ->
  forall chars punct,
    (forall b, chars <> UNDERSCORE :: b) ->
    forall b, fst (normalize_loop isalnum (chars, punct) s) <> UNDERSCORE :: b.
Proof.
  intros H95. induction s as [| c s IH]; intros chars punct Hch; [exact Hch |].
  rewrite normalize_loop_cons, normalize_step_cases.
  destruct (isalnum c || (c =? DOT)) eqn:Hkeep; [| apply IH, Hch].
  apply IH. intros b Hb.
  destruct chars as [| x r].
  - rewrite andb_false_r in Hb. cbn in Hb.
    destruct (isascii c); [| discriminate].
    injection Hb as -> _.
    pose proof (retained_not_underscore isalnum _ H95 Hkeep) as E.
    rewrite N.eqb_refl in E. discriminate.
  - apply (Hch r).
    destruct (punct && nonempty (x :: r)); cbn in Hb;
      injection Hb as -> _; reflexivity.
Qed.

Lemma no_adjacent_app_false x y :
  no_adjacent (x ++ UNDERSCORE :: UNDERSCORE :: y) = false.
Proof.
  induction x as [| a x IH]; [reflexivity |].
  cbn [app no_adjacent]. rewrite IH. apply andb_false_r.
Qed.

(** The accumulator, read from its end: no underscore last, no two
    underscores side by side. *)
Lemma normalize_loop_tidy isalnum s :
  isalnum UNDERSCORE = false ->
  Forall (fun c => isalnum c = true -> isascii c = true) s ->
  forall chars punct,
    no_adjacent (rev chars) = true ->
    (forall b, rev chars <> UNDERSCORE :: b) ->
    no_adjacent (rev (fst (normalize_loop isalnum (chars, punct) s))) = true
    /\ (forall b,
          rev (fst (normalize_loop isalnum (chars, punct) s))
          <> UNDERSCORE :: b).
Proof.
  intros H95 Hs. induction Hs as [| c s Hc Hs IH]; intros chars punct Hadj Hlast.
  { split; assumption. }
  rewrite normalize_loop_cons, normalize_step_cases.
  destruct (isalnum c || (c =? DOT)) eqn:Hkeep; [| apply IH; assumption].
  rewrite (retained_isascii isalnum c Hc Hkeep).
  pose proof (retained_not_underscore isalnum c H95 Hkeep) as Hne.
  destruct (punct && nonempty chars); apply IH.
  - rewrite !rev_app_distr. cbn [rev app no_adjacent].
    rewrite Hne, Hadj. cbn [andb negb].
    destruct (rev chars) as [| b r] eqn:Hrev; [reflexivity |].
    rewrite N.eqb_refl. cbn [andb].
    destruct (b =? UNDERSCORE) eqn:Hb; [| reflexivity].
    apply N.eqb_eq in Hb. subst b. destruct (Hlast r). reflexivity.
  - rewrite !rev_app_distr. cbn [rev app]. intros b [= E _].
    subst c. rewrite N.eqb_refl in Hne. discriminate.
  - rewrite rev_app_distr. cbn [rev app no_adjacent].
    rewrite Hadj. destruct (rev chars); [reflexivity |].
    rewrite Hne. reflexivity.
  - rewrite rev_app_distr. cbn [rev app]. intros b [= E _].
    subst c. rewrite N.eqb_refl in Hne. discriminate.
Qed.

Lemma normalize_loop_kept isalnum s : forall chars,
  Forall (fun c => kept isalnum c = true) s ->
  normalize_loop isalnum (chars, false) s = (chars ++ s, false).
Proof.
  induction s as [| c s IH]; intros chars Hs.
  { cbn. rewrite app_nil_r. reflexivity. }
  inversion Hs as [| ? ? Hc Hs']; subst.
  apply andb_true_iff in Hc as [Hkeep Hasc].
  rewrite normalize_loop_cons, normalize_step_cases, Hkeep, Hasc.
  cbn [andb]. rewrite (IH _ Hs'), <- app_assoc. reflexivity.
Qed.

Lemma normalize_loop_same isalnum s s' :
  Forall2 (same_up_to_punct isalnum) s s' ->
  forall st, normalize_loop isalnum st s = normalize_loop isalnum st s'.
Proof.
  induction 1 as [| c c' s s' Hc _ IH]; intros [chars punct]; [reflexivity |].
  rewrite !normalize_loop_cons.
  destruct Hc as [<- | [Hp Hp']]; [apply IH |].
  unfold is_punct in Hp, Hp'. apply negb_true_iff in Hp, Hp'.
  rewrite !normalize_step_cases, Hp, Hp'. apply IH.
Qed.

Lemma normalize_loop_punct_run isalnum ps : forall chars punct,
  Forall (fun c => is_punct isalnum c = true) ps ->
  ps <> [] ->
  normalize_loop isalnum (chars, punct) ps = (chars, true).
Proof.
  induction ps as [| c ps IH]; intros chars punct Hps Hne; [congruence |].
  inversion Hps as [| ? ? Hc Hps']; subst.
  unfold is_punct in Hc. apply negb_true_iff in Hc.
  rewrite normalize_loop_cons, normalize_step_cases, Hc.
  destruct ps as [| d ps']; [reflexivity |].
  apply IH; [exact Hps' | discriminate].
Qed.

Lemma normalize_loop_empty_flag isalnum s :
  fst (normalize_loop isalnum ([], true) s)
  = fst (normalize_loop isalnum ([], false) s).
Proof.
  destruct s as [| c s]; [reflexivity |].
  rewrite !normalize_loop_cons, !normalize_step_cases. reflexivity.
Qed.

Lemma str_ascii_spec b :
  (Forall (fun x => Byte.to_N x < 128) b ->
   str_ascii b = Return (List.map Byte.to_N b)
   /\ forallb isascii (List.map Byte.to_N b) = true)
  /\ (~ Forall (fun x => Byte.to_N x < 128) b ->
      str_ascii b = Raise UnicodeDecodeError).
Proof.
  unfold str_ascii.
  destruct (forallb isascii (List.map Byte.to_N b)) eqn:Hall.
  - split; [intros _; split; reflexivity |]. intros Hn. destruct Hn.
    apply List.Forall_forall. intros x Hx.
    apply N.ltb_lt.
    apply (proj1 (forallb_forall _ _) Hall), in_map, Hx.
  - split; [| reflexivity]. intros Hb. exfalso.
    assert (forallb isascii (List.map Byte.to_N b) = true); [| congruence].
    apply forallb_forall. intros c Hc.
    apply in_map_iff in Hc as (x & <- & Hx).
    apply N.ltb_lt. apply (proj1 (List.Forall_forall _ _) Hb), Hx.
Qed.

Lemma nonempty_app X Y : nonempty Y = true -> nonempty (X ++ Y) = true.
Proof. destruct X; [exact (fun H => H) | reflexivity]. Qed.

Lemma nonempty_snoc Y c : nonempty (Y ++ [c]) = true.
Proof. destruct Y; reflexivity. Qed.

(** What is already in the accumulator in front of its last part plays
    no role in what the loop appends. *)
Lemma normalize_loop_prefix isalnum s : forall X Y punct,
  nonempty Y = true ->
  normalize_loop isalnum (X ++ Y, punct) s
  = (X ++ fst (normalize_loop isalnum (Y, punct) s),
     snd (normalize_loop isalnum (Y, punct) s)).
Proof.
  induction s as [| c s IH]; intros X Y punct HY; [reflexivity |].
  rewrite !normalize_loop_cons, !normalize_step_cases.
  rewrite (nonempty_app X Y HY), HY.
  destruct (isalnum c || (c =? DOT)); [| apply IH, HY].
  destruct punct, (isascii c); cbn [andb];
    rewrite ?app_nil_r, <- ?app_assoc;
    apply IH; rewrite ?app_assoc, ?nonempty_snoc; auto.
Qed.

(** C6, as the code has it: a name made of punctuation only normalizes to
    the empty string, "  -;#" among them.  A non-empty run of punctuation
    becomes exactly one underscore when something has been retained
    before it and an ASCII alphanumeric character or a dot follows it;
    in front of the first retained character and at the end of the name
    it leaves nothing. *)
Theorem normalize_encoding_punct_only (isalnum : N -> bool) :
  (forall c, isascii c = true -> isalnum c = ascii_isalnum c) ->
  (forall s, Forall (fun c => is_punct isalnum c = true) s ->
             normalize_encoding isalnum (Str s) = Return [])
  /\ normalize_encoding isalnum (Str (py "  -;#")) = Return []
  /\ (forall a ps c b,
        Forall (fun c => is_punct isalnum c = true) ps -> ps <> [] ->
        kept isalnum c = true ->
        normalize_str isalnum a <> [] ->
        normalize_encoding isalnum (Str (a ++ ps ++ c :: b))
        = Return (normalize_str isalnum a
                    ++ UNDERSCORE :: normalize_str isalnum (c :: b)))
  /\ (forall a s,
        normalize_str isalnum a = [] ->
        normalize_encoding isalnum (Str (a ++ s))
        = normalize_encoding isalnum (Str s))
  /\ (forall s ps,
        Forall (fun c => is_punct isalnum c = true) ps ->
        normalize_encoding isalnum (Str (s ++ ps))
        = normalize_encoding isalnum (Str s))
  /\ normalize_encoding isalnum (Str (py "a  -;#b")) = Return (py "a_b").
Proof.
  intros Hal. split; [| split; [| split; [| split; [| split]]]].
  - intros s Hs. cbn [normalize_encoding]. f_equal.
    apply normalize_loop_punct, Hs.
  - cbn [normalize_encoding].
    rewrite !(normalize_str_ascii isalnum _ Hal) by reflexivity.
    reflexivity.
  - intros a ps c b Hps Hne Hc Ha. cbn [normalize_encoding]. f_equal.
    unfold normalize_str in *. rewrite !normalize_loop_app.
    destruct (normalize_loop isalnum ([], false) a) as [A pf].
    cbn [fst] in Ha.
    rewrite (normalize_loop_punct_run isalnum ps A pf Hps Hne).
    rewrite !normalize_loop_cons, !normalize_step_cases.
    apply andb_true_iff in Hc as [Hkeep Hasc]. rewrite Hkeep, Hasc.
    assert (HA : nonempty A = true) by (destruct A; [congruence | reflexivity]).
    rewrite HA. cbn [andb app].
    rewrite (normalize_loop_prefix isalnum b (A ++ [UNDERSCORE]) [c] false
               eq_refl).
    cbn [fst]. rewrite <- app_assoc. reflexivity.
  - intros a s Ha. cbn [normalize_encoding]. f_equal.
    unfold normalize_str in *. rewrite normalize_loop_app.
    destruct (normalize_loop isalnum ([], false) a) as [A pf].
    cbn [fst] in Ha. subst A.
    destruct pf; [apply normalize_loop_empty_flag | reflexivity].
  - intros s ps Hps. cbn [normalize_encoding]. f_equal.
    unfold normalize_str. rewrite normalize_loop_app.
    destruct (normalize_loop isalnum ([], false) s) as [chars punct].
    apply (normalize_loop_punct isalnum ps chars punct Hps).
  - cbn [normalize_encoding].
    rewrite !(normalize_str_ascii isalnum _ Hal) by reflexivity.
    reflexivity.
Qed.

Lemma normalize_encoding_punct_only_witness :
  (forall s, Forall (fun c => is_punct isalnum_latin1 c = true) s ->
             normalize_encoding isalnum_latin1 (Str s) = Return [])
  /\ normalize_encoding isalnum_latin1 (Str (py "  -;#")) = Return []
  /\ (forall a ps c b,
        Forall (fun c => is_punct isalnum_latin1 c = true) ps -> ps <> [] ->
        kept isalnum_latin1 c = true ->
        normalize_str isalnum_latin1 a <> [] ->
        normalize_encoding isalnum_latin1 (Str (a ++ ps ++ c :: b))
        = Return (normalize_str isalnum_latin1 a
                    ++ UNDERSCORE :: normalize_str isalnum_latin1 (c :: b)))
  /\ (forall a s,
        normalize_str isalnum_latin1 a = [] ->
        normalize_encoding isalnum_latin1 (Str (a ++ s))
        = normalize_encoding isalnum_latin1 (Str s))
  /\ (forall s ps,
        Forall (fun c => is_punct isalnum_latin1 c = true) ps ->
        normalize_encoding isalnum_latin1 (Str (s ++ ps))
        = normalize_encoding isalnum_latin1 (Str s))
  /\ normalize_encoding isalnum_latin1 (Str (py "a  -;#b"))
     = Return (py "a_b").
Proof.
  exact (normalize_encoding_punct_only isalnum_latin1 isalnum_latin1_ascii).
Defined.

(** C6, refuted as stated: the result for "  -;#" is the empty string,
    not one underscore. *)
Lemma normalize_encoding_punct_only_empty :
  normalize_encoding isalnum_latin1 (Str (py "  -;#")) = Return []
  /\ normalize_encoding isalnum_latin1 (Str (py "  -;#"))
     <> Return [UNDERSCORE].
Proof. split; [reflexivity | vm_compute; discriminate]. Qed.

(** ** Properties of search_function *)

Lemma add_log_nil st : add_log st [] = st.
Proof. destruct st. unfold add_log. cbn. rewrite app_nil_r. reflexivity. Qed.

Lemma add_log_app st a b : add_log (add_log st a) b = add_log st (a ++ b).
Proof. unfold add_log. cbn. rewrite app_assoc. reflexivity. Qed.

(** The import loop reads nothing of the state and only adds to the log:
    its result and its events are the same from every state. *)
Lemma import_first_spec imp ms :
  exists r evs,
    (forall st, import_first imp ms st = (r, add_log st evs))
    /\ match r with
       | Return (Some (modname, mod_)) =>
           In (EvImport (py "encodings." ++ modname)) evs
           /\ In modname ms /\ usable modname = true
           /\ imp (py "encodings." ++ modname) = Return mod_
       | _ => True
       end.
Proof.
  induction ms as [| m ms (r & evs & IH & Hr)].
  - exists (Return None), []. split; [| exact I].
    intros st. cbn. rewrite add_log_nil. reflexivity.
  - cbn [import_first].
    destruct (negb (nonempty m) || existsb (N.eqb DOT) m) eqn:Hskip.
    { exists r, evs. split; [exact IH |].
      destruct r as [[[m' md] |] |]; try exact I.
      destruct Hr as (? & ? & ? & ?). auto using in_cons. }
    assert (Hus : usable m = true).
    { unfold usable. apply orb_false_iff in Hskip as [H1 H2].
      apply negb_false_iff in H1. rewrite H1, H2. reflexivity. }
    unfold try_import, bind, emit, ret, raise.
    destruct (imp (py "encodings." ++ m)) as [md | e] eqn:Himp.
    + exists (Return (Some (m, md))), [EvImport (py "encodings." ++ m)].
      split; [reflexivity |]. auto using in_eq.
    + destruct e;
        try (eexists (Raise _), [EvImport (py "encodings." ++ m)];
             split; [reflexivity | exact I]).
      exists r, (EvImport (py "encodings." ++ m) :: evs). split.
      * intros st. rewrite IH, add_log_app. reflexivity.
      * destruct r as [[[m' md] |] |]; try exact I.
        destruct Hr as (? & ? & ? & ?). auto using in_cons.
Qed.

Lemma register_aliases_spec l modname : forall st,
  exists al,
    register_aliases l modname st
    = (Return tt, {| _cache := _cache st; _aliases := al; log := log st |}).
Proof.
  induction l as [| a l IH]; intros st.
  - exists (_aliases st). destruct st; reflexivity.
  - cbn [register_aliases]. unfold bind, aliases_store, ret.
    destruct (_aliases st !! a).
    + apply IH.
    + destruct (IH {| _cache := _cache st;
                      _aliases := <[a:=modname]> (_aliases st);
                      log := log st |}) as [al Hal].
      exists al. exact Hal.
Qed.

Lemma import_first_state imp ms st r st1 :
  import_first imp ms st = (r, st1) ->
  exists evs, st1 = add_log st evs.
Proof.
  destruct (import_first_spec imp ms) as (r' & evs & H & _).
  rewrite H. intros [= _ <-]. exists evs. reflexivity.
Qed.

Lemma register_aliases_exact l modname : forall st,
  exists al,
    register_aliases l modname st
    = (Return tt, {| _cache := _cache st; _aliases := al; log := log st |})
    /\ registers (_aliases st) l modname al.
Proof.
  induction l as [| a l IH]; intros st.
  - exists (_aliases st). split; [destruct st; reflexivity |].
    repeat split; auto. intros ? ? [].
  - cbn [register_aliases]. unfold bind, aliases_store, ret.
    destruct (_aliases st !! a) as [v0 |] eqn:Ha.
    + destruct (IH st) as (al & Heq & Hold & Hnew & Hnone).
      exists al. split; [exact Heq |]. split; [exact Hold |]. split.
      * intros b Hb [<- | Hin]; [congruence | auto].
      * intros b Hb Hnin. apply Hnone; [exact Hb |].
        intros Hin. apply Hnin. right. exact Hin.
    + destruct (IH {| _cache := _cache st;
                      _aliases := <[a:=modname]> (_aliases st);
                      log := log st |})
        as (al & Heq & Hold & Hnew & Hnone).
      cbn [_aliases _cache log] in *.
      exists al. split; [exact Heq |]. split; [| split].
      * intros b v Hb. apply Hold. rewrite lookup_insert_ne; [exact Hb |].
        intros <-. congruence.
      * intros b Hb Hin. destruct (decide (a = b)) as [<- | Hne].
        -- apply Hold. apply lookup_insert_eq.
        -- destruct Hin as [-> | Hin]; [congruence |].
           apply Hnew; [| exact Hin]. rewrite lookup_insert_ne; assumption.
      * intros b Hb Hnin. apply Hnone.
        -- rewrite lookup_insert_ne; [exact Hb |].
           intros <-. apply Hnin. left. reflexivity.
        -- intros Hin. apply Hnin. right. exact Hin.
Qed.

(** Every way a call of [search_function] can go, with the state it
    leaves. *)
Lemma search_function_paths isalnum imp encoding st res st' :
  search_function isalnum imp encoding st = (res, st') ->
  (exists entry,
     _cache st !! encoding = Some entry /\ res = Return entry /\ st' = st)
  \/ (_cache st !! encoding = None
      /\ exists r evs,
           (forall s,
              import_first imp
                (modnames_of (_aliases st) (normalize_str isalnum encoding)) s
              = (r, add_log s evs))
           /\ match r with
              | Raise e => res = Raise e /\ st' = add_log st evs
              | Return None =>
                  res = Return None
                  /\ st' = with_cache (add_log st evs) encoding None
              | Return (Some (modname, mod_)) =>
                  match m_getregentry mod_ with
                  | None =>
                      res = Return None
                      /\ st' = with_cache (add_log st evs) encoding None
                  | Some (Raise e) =>
                      res = Raise e
                      /\ st' = add_log st
                                 (evs ++ [EvGetregentry (m_name mod_)])
                  | Some (Return g) =>
                      match check_entry mod_ g with
                      | Raise e =>
                          res = Raise e
                          /\ st' = add_log st
                                     (evs ++ [EvGetregentry (m_name mod_)])
                      | Return entry =>
                          _cache st'
                          = <[encoding := Some entry]> (_cache st)
                          /\ match m_getaliases mod_ with
                             | None =>
                                 res = Return (Some entry)
                                 /\ _aliases st' = _aliases st
                                 /\ log st'
                                    = log st ++ evs
                                        ++ [EvGetregentry (m_name mod_)]
                             | Some (Return l) =>
                                 res = Return (Some entry)
                                 /\ registers (_aliases st) l modname
                                      (_aliases st')
                                 /\ log st'
                                    = log st ++ evs
                                        ++ [EvGetregentry (m_name mod_);
                                            EvGetaliases (m_name mod_)]
                             | Some (Raise e) =>
                                 res = match e with
                                       | AttributeError => Return (Some entry)
                                       | _ => Raise e
                                       end
                                 /\ _aliases st' = _aliases st
                                 /\ log st'
                                    = log st ++ evs
                                        ++ [EvGetregentry (m_name mod_);
                                            EvGetaliases (m_name mod_)]
                             end
                      end
                  end
              end).
Proof.
  intros H. unfold search_function in H.
  destruct (_cache st !! encoding) as [entry |] eqn:Hget.
  { left. exists entry. injection H as <- <-. auto. }
  right. split; [reflexivity |].
  destruct (import_first_spec imp
              (modnames_of (_aliases st) (normalize_str isalnum encoding)))
    as (r & evs & Hspec & _).
  exists r, evs. split; [exact Hspec |].
  unfold bind, lift in H. cbn [normalize_encoding] in H. rewrite Hspec in H.
  destruct r as [[[modname mod_] |] | e].
  - destruct (m_getregentry mod_) as [[g | e] |].
    + unfold emit in H. destruct (check_entry mod_ g) as [entry | e].
      * unfold cache_store at 1 in H.
        destruct (m_getaliases mod_) as [[l | e] |].
        -- match type of H with
           | context [register_aliases ?l ?m ?s] =>
               destruct (register_aliases_exact l m s) as (al & Heq & Hreg)
           end.
           unfold emit in H. rewrite Heq in H. unfold ret in H.
           injection H as <- <-. cbn. rewrite <- !app_assoc. auto.
        -- unfold emit, ret, raise in H.
           destruct e; injection H as <- <-; cbn; rewrite <- !app_assoc;
             auto.
        -- unfold ret in H. injection H as <- <-.
           cbn. rewrite <- !app_assoc. auto.
      * injection H as <- <-. rewrite add_log_app. auto.
    + unfold emit in H. injection H as <- <-. rewrite add_log_app. auto.
    + unfold cache_store, ret in H. injection H as <- <-. auto.
  - unfold cache_store, ret in H. injection H as <- <-. auto.
  - injection H as <- <-. auto.
Qed.

(** A resolution that returns leaves its result in [_cache] under the
    name it was given. *)
Lemma search_function_stores isalnum imp encoding st r st' :
  search_function isalnum imp encoding st = (Return r, st') ->
  _cache st' !! encoding = Some r.
Proof.
  intros H.
  apply search_function_paths in H
    as [(entry & Hget & [= <-] & ->) | (_ & r0 & evs & _ & H)];
    [exact Hget |].
  destruct r0 as [[[modname mod_] |] | e].
  - destruct (m_getregentry mod_) as [[g | e] |].
    + destruct (check_entry mod_ g) as [entry | e].
      * destruct H as [Hc H]. rewrite Hc.
        destruct (m_getaliases mod_) as [[l | e] |];
          destruct H as (Hres & _);
          try (injection Hres as <-; apply lookup_insert_eq).
        destruct e; try discriminate Hres.
        injection Hres as <-. apply lookup_insert_eq.
      * destruct H as [[=] _].
    + destruct H as [[=] _].
    + destruct H as [[= <-] ->]. cbn. apply lookup_insert_eq.
  - destruct H as [[= <-] ->]. cbn. apply lookup_insert_eq.
  - destruct H as [[=] _].
Qed.

(** A resolution never removes or overwrites an entry of [_cache], and
    writes under no other key than the name it was given. *)
Lemma search_function_cache_frame isalnum imp encoding st res st' :
  search_function isalnum imp encoding st = (res, st') ->
  (forall k v, _cache st !! k = Some v -> _cache st' !! k = Some v)
  /\ (forall k, k <> encoding -> _cache st' !! k = _cache st !! k).
Proof.
  intros H.
  assert (Hne : forall k, k <> encoding -> _cache st' !! k = _cache st !! k).
  { intros k Hk.
    apply search_function_paths in H
      as [(entry & _ & _ & ->) | (_ & r & evs & _ & H)]; [reflexivity |].
    assert (Hw : forall v,
              _cache (with_cache (add_log st evs) encoding v) !! k
              = _cache st !! k)
      by (intros v; cbn; apply lookup_insert_ne; congruence).
    destruct r as [[[modname mod_] |] | e];
      [destruct (m_getregentry mod_) as [[g | e] |];
       [destruct (check_entry mod_ g) as [entry | e] | |] | |];
      try (destruct H as [_ ->]; first [apply Hw | reflexivity]).
    destruct H as (-> & _). apply lookup_insert_ne. congruence. }
  split; [| exact Hne].
  intros k v Hk. destruct (decide (k = encoding)) as [-> | Hk'].
  - apply search_function_paths in H
      as [(entry & _ & _ & ->) | (Hmiss & _)]; [exact Hk | congruence].
  - rewrite (Hne k Hk'). exact Hk.
Qed.

(** Entries of the cache outlive every later resolution. *)
Lemma later_keeps_cache st st' :
  later st st' ->
  forall k v, _cache st !! k = Some v -> _cache st' !! k = Some v.
Proof.
  induction 1 as [| st st1 st2 isalnum imp encoding res _ IH Hcall];
    intros k v Hk; [exact Hk |].
  apply (proj1 (search_function_cache_frame _ _ _ _ _ _ Hcall)), IH, Hk.
Qed.

(** C1, as the code has it: the cache is read and written under the
    requested name itself, not under its normalized form.  Once a
    resolution of a name has returned, a descriptor or [None], every
    later resolution of the same name, after any number of other
    resolutions and whatever the import system holds by then, returns
    that result from the cache and leaves the state as it is: no import,
    no factory call, no validation.  The resolution writes under no
    other name: a different name, of the same normalized form or not, is
    cached as it was before, so it is resolved and cached on its own. *)
Theorem search_function_cached
    isalnum imp isalnum' imp' encoding st r st' st'' :
  search_function isalnum imp encoding st = (Return r, st') ->
  later st' st'' ->
  search_function isalnum' imp' encoding st'' = (Return r, st'')
  /\ (forall other, other <> encoding ->
        _cache st' !! other = _cache st !! other).
Proof.
  intros H Hlater. split.
  - apply search_function_stores in H.
    apply (later_keeps_cache _ _ Hlater) in H.
    unfold search_function. rewrite H. reflexivity.
  - apply (proj2 (search_function_cache_frame _ _ _ _ _ _ H)).
Qed.

Lemma search_function_cached_witness :
  search_function isalnum_latin1 (fun _ => Raise ImportError) (py "utf-8")
    (snd (search_function isalnum_latin1 site_modules (py "legacy")
            (snd (search_function isalnum_latin1 site_modules (py "utf-8")
                    (initial [])))))
  = (Return (Some (CodecInfo [PyCallable 0; PyCallable 1; PyCallable 2;
                              PyCallable 3; PyCallable 4; PyCallable 5;
                              PyStr (py "utf-8")])),
     snd (search_function isalnum_latin1 site_modules (py "legacy")
            (snd (search_function isalnum_latin1 site_modules (py "utf-8")
                    (initial [])))))
  /\ (forall other, other <> py "utf-8" ->
        _cache (snd (search_function isalnum_latin1 site_modules
                       (py "utf-8") (initial []))) !! other
        = _cache (initial []) !! other).
Proof.
  apply (search_function_cached isalnum_latin1 site_modules isalnum_latin1
           (fun _ => Raise ImportError) (py "utf-8") (initial [])).
  - vm_compute. reflexivity.
  - apply (later_step _ _ _ isalnum_latin1 site_modules (py "legacy")
             (fst (search_function isalnum_latin1 site_modules (py "legacy")
                     (snd (search_function isalnum_latin1 site_modules
                             (py "utf-8") (initial [])))))
             (later_refl _)).
    vm_compute. reflexivity.
Defined.

(** C1, refuted as stated: "utf-8" and "utf_8" have the same normalized
    name, yet after "utf-8" is resolved the cache has nothing for "utf_8",
    and resolving "utf_8" imports the module and calls its factory a
    second time. *)
Lemma search_function_cache_not_normalized :
  normalize_encoding isalnum_latin1 (Str (py "utf-8"))
  = normalize_encoding isalnum_latin1 (Str (py "utf_8"))
  /\ let st1 :=
       snd (search_function isalnum_latin1 site_modules (py "utf-8")
              (initial [])) in
     let st2 :=
       snd (search_function isalnum_latin1 site_modules (py "utf_8") st1) in
     _cache st1 !! py "utf_8" = None
     /\ log st1 = [EvImport (py "encodings.utf_8");
                   EvGetregentry (py "encodings.utf_8")]
     /\ log st2 = [EvImport (py "encodings.utf_8");
                   EvGetregentry (py "encodings.utf_8");
                   EvImport (py "encodings.utf_8");
                   EvGetregentry (py "encodings.utf_8")].
Proof. vm_compute. repeat split. Qed.

Lemma import_first_skip imp m rest st :
  usable m = false ->
  import_first imp (m :: rest) st = import_first imp rest st.
Proof.
  intros H. cbn [import_first]. unfold usable in H.
  destruct (nonempty m); cbn in H |- *; [rewrite (negb_false_iff _) in H |];
    try rewrite H; reflexivity.
Qed.

Lemma import_first_filter imp modnames st :
  import_first imp modnames st = import_first imp (List.filter usable modnames) st.
Proof.
  revert st. induction modnames as [| m ms IH]; intros st; [reflexivity |].
  cbn [List.filter]. destruct (usable m) eqn:Hm.
  - cbn [import_first]. unfold usable in Hm.
    apply andb_true_iff in Hm as [-> Hdot]. apply negb_true_iff in Hdot.
    rewrite Hdot. cbn [negb orb]. unfold bind.
    destruct (try_import imp m st) as [[[md |] | e] st1]; auto.
  - rewrite import_first_skip by exact Hm. apply IH.
Qed.

(** C2, as the code has it: when the alias table has a (non-empty) target
    for the normalized name, the candidates are the alias target first and
    the normalized name second, duplicates included; the loop imports
    them in that order, stops at the first that loads, goes on after an
    [ImportError], and passes over every candidate that is empty or
    contains a dot. *)
Theorem modnames_alias_first imp aliases norm_encoding aliased_encoding :
  aliases !! norm_encoding = Some aliased_encoding ->
  nonempty aliased_encoding = true ->
  modnames_of aliases norm_encoding = [aliased_encoding; norm_encoding]
  /\ (forall modnames st,
        import_first imp modnames st
        = import_first imp (List.filter usable modnames) st)
  /\ (forall m rest mod_ st,
        usable m = true ->
        imp (py "encodings." ++ m) = Return mod_ ->
        import_first imp (m :: rest) st
        = (Return (Some (m, mod_)),
           add_log st [EvImport (py "encodings." ++ m)]))
  /\ (forall m rest st,
        usable m = true ->
        imp (py "encodings." ++ m) = Raise ImportError ->
        import_first imp (m :: rest) st
        = import_first imp rest
            (add_log st [EvImport (py "encodings." ++ m)])).
Proof.
  intros Hget Hne. repeat split.
  - unfold modnames_of, py_or. rewrite Hget, Hne. reflexivity.
  - apply import_first_filter.
  - intros m rest mod_ st Hm Himp. cbn [import_first]. unfold usable in Hm.
    apply andb_true_iff in Hm as [-> Hdot]. apply negb_true_iff in Hdot.
    rewrite Hdot. cbn [negb orb].
    unfold bind, try_import, emit, ret. rewrite Himp. reflexivity.
  - intros m rest st Hm Himp. cbn [import_first]. unfold usable in Hm.
    apply andb_true_iff in Hm as [-> Hdot]. apply negb_true_iff in Hdot.
    rewrite Hdot. cbn [negb orb].
    unfold bind, try_import, emit, ret. rewrite Himp. reflexivity.
Qed.

Lemma modnames_alias_first_witness :
  modnames_of {[ py "utf8" := py "utf_8" ]} (py "utf8")
  = [py "utf_8"; py "utf8"]
  /\ (forall modnames st,
        import_first site_modules modnames st
        = import_first site_modules (List.filter usable modnames) st)
  /\ (forall m rest mod_ st,
        usable m = true ->
        site_modules (py "encodings." ++ m) = Return mod_ ->
        import_first site_modules (m :: rest) st
        = (Return (Some (m, mod_)),
           add_log st [EvImport (py "encodings." ++ m)]))
  /\ (forall m rest st,
        usable m = true ->
        site_modules (py "encodings." ++ m) = Raise ImportError ->
        import_first site_modules (m :: rest) st
        = import_first site_modules rest
            (add_log st [EvImport (py "encodings." ++ m)])).
Proof.
  apply (modnames_alias_first site_modules {[ py "utf8" := py "utf_8" ]}
           (py "utf8") (py "utf_8")).
  - vm_compute. reflexivity.
  - reflexivity.
Defined.

(** C2, refuted as stated: the alias target comes first, the normalized
    name second, and a target equal to the name is tried twice. *)
Lemma modnames_normalized_not_first :
  modnames_of {[ py "utf8" := py "utf_8" ]} (py "utf8")
  = [py "utf_8"; py "utf8"]
  /\ modnames_of {[ py "koi8" := py "koi8" ]} (py "koi8")
     = [py "koi8"; py "koi8"]
  /\ log (snd (search_function isalnum_latin1 site_modules (py "utf8")
                 (initial [(py "utf8", py "utf_8")])))
     = [EvImport (py "encodings.utf_8");
        EvGetregentry (py "encodings.utf_8")]
  /\ log (snd (search_function isalnum_latin1 site_modules (py "koi8")
                 (initial [(py "koi8", py "koi8")])))
     = [EvImport (py "encodings.koi8"); EvImport (py "encodings.koi8")].
Proof. vm_compute. repeat split. Qed.

(** A resolution that misses the cache and loads a module, in terms of
    what the module offers. *)
Lemma search_function_loaded isalnum imp encoding st modname mod_ st1 :
  _cache st !! encoding = None ->
  import_first imp (modnames_of (_aliases st) (normalize_str isalnum encoding))
    st = (Return (Some (modname, mod_)), st1) ->
  match m_getregentry mod_ with
  | None =>
      search_function isalnum imp encoding st
      = (Return None,
         {| _cache := <[encoding := None]> (_cache st1);
            _aliases := _aliases st1; log := log st1 |})
  | Some (Raise e) =>
      search_function isalnum imp encoding st
      = (Raise e, add_log st1 [EvGetregentry (m_name mod_)])
  | Some (Return getregentry) =>
      match check_entry mod_ getregentry with
      | Raise e =>
          search_function isalnum imp encoding st
          = (Raise e, add_log st1 [EvGetregentry (m_name mod_)])
      | Return entry =>
          _cache (snd (search_function isalnum imp encoding st)) !! encoding
          = Some (Some entry)
          /\ fst (search_function isalnum imp encoding st)
             = match m_getaliases mod_ with
               | Some (Raise AttributeError) => Return (Some entry)
               | Some (Raise e) => Raise e
               | _ => Return (Some entry)
               end
      end
  end.
Proof.
  intros Hmiss Hload. unfold search_function. rewrite Hmiss.
  unfold bind, lift. cbn [normalize_encoding]. rewrite Hload.
  destruct (m_getregentry mod_) as [[g | e] |]; [| reflexivity | reflexivity].
  unfold emit. destruct (check_entry mod_ g) as [entry | e]; [| reflexivity].
  unfold cache_store.
  destruct (m_getaliases mod_) as [[codecaliases | e] |].
  - match goal with
    | |- context [register_aliases ?l ?m ?s] =>
        destruct (register_aliases_spec l m s) as [al ->]
    end.
    cbn. split; [apply lookup_insert_eq | reflexivity].
  - unfold ret, raise.
    destruct e; cbn; (split; [apply lookup_insert_eq | reflexivity]).
  - cbn. split; [apply lookup_insert_eq | reflexivity].
Qed.


Lemma split_dot_1_raises s e : split_dot_1 s = Raise e -> e = IndexError.
Proof.
  induction s as [| c r IH]; cbn; [congruence |].
  destruct (c =? DOT); [discriminate | exact IH].
Qed.

Lemma CodecInfo_new_raises args e : CodecInfo_new args = Raise e -> e = TypeError.
Proof. unfold CodecInfo_new. destruct (_ && _)%nat; congruence. Qed.

Lemma check_entry_member_count mod_ items :
  check_entry mod_ (PyTuple items)
  = Raise (CodecRegistryError FailedToRegister (m_name mod_) (m_file mod_))
  <-> ~ (4 <= length items <= 7)%nat.
Proof.
  unfold check_entry.
  destruct ((4 <=? length items) && (length items <=? 7))%nat eqn:Hlen.
  - apply andb_true_iff in Hlen as [H4 H7].
    apply Nat.leb_le in H4, H7. cbn [negb]. split; [| lia].
    intros H. exfalso.
    match type of H with
    | (if ?b then _ else _) = _ => destruct b; [discriminate |]
    end.
    match type of H with
    | (if ?b then _ else _) = _ => destruct b
    end.
    + destruct (split_dot_1 (m_name mod_)) as [tail | e] eqn:Hsplit.
      * apply CodecInfo_new_raises in H. discriminate.
      * apply split_dot_1_raises in Hsplit. subst e. discriminate.
    + apply CodecInfo_new_raises in H. discriminate.
  - cbn [negb]. split; [| reflexivity]. intros _ [H4 H7].
    apply Nat.leb_le in H4, H7. rewrite H4, H7 in Hlen. discriminate.
Qed.

(** C3, as the code has it: a candidate module that loads but has no
    [getregentry] is "not a codec module".  The resolution raises
    nothing: it stores [None] in the cache under the requested name and
    returns [None], and the next resolution of that name returns the
    cached [None] without another import. *)
Theorem search_function_no_getregentry
    isalnum imp encoding st modname mod_ st1 :
  _cache st !! encoding = None ->
  import_first imp (modnames_of (_aliases st) (normalize_str isalnum encoding))
    st = (Return (Some (modname, mod_)), st1) ->
  m_getregentry mod_ = None ->
  let st' := {| _cache := <[encoding := None]> (_cache st1);
                _aliases := _aliases st1; log := log st1 |} in
  search_function isalnum imp encoding st = (Return None, st')
  /\ search_function isalnum imp encoding st' = (Return None, st').
Proof.
  intros Hmiss Hload Hattr st'.
  pose proof (search_function_loaded _ _ _ _ _ _ _ Hmiss Hload) as H.
  rewrite Hattr in H. split; [exact H |].
  unfold search_function. subst st'. cbn [_cache].
  rewrite lookup_insert_eq. reflexivity.
Qed.

Lemma search_function_no_getregentry_witness :
  let st' := {| _cache := <[py "plain" := None]> ∅;
                _aliases := ∅;
                log := [EvImport (py "encodings.plain")] |} in
  search_function isalnum_latin1 site_modules (py "plain") (initial [])
  = (Return None, st')
  /\ search_function isalnum_latin1 site_modules (py "plain") st'
     = (Return None, st').
Proof.
  apply (search_function_no_getregentry isalnum_latin1 site_modules
           (py "plain") (initial []) (py "plain") plain
           (add_log (initial []) [EvImport (py "encodings.plain")])).
  - reflexivity.
  - vm_compute. reflexivity.
  - reflexivity.
Defined.

(** C3, refuted as stated: for the module without [getregentry] the
    resolution returns [None] instead of raising, the miss is cached, and
    the second resolution imports nothing. *)
Lemma search_function_no_getregentry_cached :
  let r1 := search_function isalnum_latin1 site_modules (py "plain")
              (initial []) in
  let r2 := search_function isalnum_latin1 site_modules (py "plain")
              (snd r1) in
  fst r1 = Return None
  /\ _cache (snd r1) !! py "plain" = Some None
  /\ log (snd r1) = [EvImport (py "encodings.plain")]
  /\ log (snd r2) = [EvImport (py "encodings.plain")].
Proof. vm_compute. repeat split. Qed.

(** C7, as the code has it: a factory result that is a plain tuple must
    have between 4 and 7 members.  With any other count the resolution
    raises [CodecRegistryError] "module ... failed to register", naming
    the module and its file, right after the factory call, and stores
    nothing in the cache.  With 4 to 7 members the check never raises
    that error: the call can then end in it only if the tuple passed
    every check and the module's own [getaliases()] raised it. *)
Theorem search_function_member_count
    isalnum imp encoding st modname mod_ st1 items :
  _cache st !! encoding = None ->
  import_first imp (modnames_of (_aliases st) (normalize_str isalnum encoding))
    st = (Return (Some (modname, mod_)), st1) ->
  m_getregentry mod_ = Some (Return (PyTuple items)) ->
  (fst (search_function isalnum imp encoding st)
   = Raise (CodecRegistryError FailedToRegister (m_name mod_) (m_file mod_))
   <-> ~ (4 <= length items <= 7)%nat
       \/ (m_getaliases mod_
           = Some (Raise (CodecRegistryError FailedToRegister (m_name mod_)
                            (m_file mod_)))
           /\ exists entry, check_entry mod_ (PyTuple items) = Return entry))
  /\ (~ (4 <= length items <= 7)%nat ->
      search_function isalnum imp encoding st
      = (Raise (CodecRegistryError FailedToRegister (m_name mod_)
                  (m_file mod_)),
         add_log st1 [EvGetregentry (m_name mod_)])
      /\ _cache (snd (search_function isalnum imp encoding st)) = _cache st).
Proof.
  intros Hmiss Hload Hattr.
  pose proof (search_function_loaded _ _ _ _ _ _ _ Hmiss Hload) as H.
  rewrite Hattr in H.
  pose proof (check_entry_member_count mod_ items) as Hcount.
  destruct (import_first_state _ _ _ _ _ Hload) as [evs ->].
  destruct (check_entry mod_ (PyTuple items)) as [entry | e].
  - destruct H as [_ H]. rewrite H. split.
    + split.
      * intros Hres. right.
        destruct (m_getaliases mod_) as [[l | e] |]; try discriminate Hres.
        destruct e; try discriminate Hres.
        injection Hres as -> -> ->. split; [reflexivity | eauto].
      * intros [Hn | [-> _]]; [| reflexivity].
        apply Hcount in Hn. discriminate.
    + intros Hn. apply Hcount in Hn. discriminate.
  - rewrite H. cbn [fst snd]. split.
    + split.
      * intros [= ->]. left. apply Hcount. reflexivity.
      * intros [Hn | [_ [entry [=]]]].
        apply Hcount in Hn. injection Hn as ->. reflexivity.
    + intros Hn. apply Hcount in Hn. injection Hn as ->.
      split; reflexivity.
Qed.

Lemma search_function_member_count_witness :
  (fst (search_function isalnum_latin1 site_modules (py "short") (initial []))
   = Raise (CodecRegistryError FailedToRegister (m_name short) (m_file short))
   <-> ~ (4 <= length [PyCallable 0; PyCallable 1; PyNone] <= 7)%nat
       \/ (m_getaliases short
           = Some (Raise (CodecRegistryError FailedToRegister (m_name short)
                            (m_file short)))
           /\ exists entry,
                check_entry short
                  (PyTuple [PyCallable 0; PyCallable 1; PyNone])
                = Return entry))
  /\ (~ (4 <= length [PyCallable 0; PyCallable 1; PyNone] <= 7)%nat ->
      search_function isalnum_latin1 site_modules (py "short") (initial [])
      = (Raise (CodecRegistryError FailedToRegister (m_name short)
                  (m_file short)),
         add_log (add_log (initial []) [EvImport (py "encodings.short")])
           [EvGetregentry (m_name short)])
      /\ _cache (snd (search_function isalnum_latin1 site_modules (py "short")
                        (initial [])))
         = _cache (initial [])).
Proof.
  apply (search_function_member_count isalnum_latin1 site_modules
           (py "short") (initial []) (py "short") short
           (add_log (initial []) [EvImport (py "encodings.short")])).
  - reflexivity.
  - vm_compute. reflexivity.
  - reflexivity.
Defined.

(** C7, refuted as stated: a factory returning four members resolves to
    a descriptor. *)
Lemma search_function_accepts_four_members :
  m_getregentry legacy
  = Some (Return (PyTuple [PyCallable 0; PyCallable 1; PyNone; PyNone]))
  /\ fst (search_function isalnum_latin1 site_modules (py "legacy")
            (initial []))
     = Return (Some (CodecInfo [PyCallable 0; PyCallable 1; PyNone; PyNone;
                                PyNone; PyNone; PyStr (py "legacy")])).
Proof. vm_compute. split; reflexivity. Qed.




(** ** Properties of the win32 hook *)

Lemma mbcs_is_no_code_page n : py "mbcs" <> py "cp" ++ str_of_int n.
Proof. discriminate. Qed.

(** C4, as the code has it: the hook is registered on win32 only, after
    [search_function].  It answers for one name, "cp" followed by the
    decimal active code page, and what it returns then is the registry
    entry of the [mbcs] codec; for every other name, "mbcs" included, and
    whenever [_winapi] or [encodings.mbcs] cannot be imported, it returns
    [None]. *)
Theorem alias_mbcs_code_page (GetACP : N) mbcs_ getregentry encoding :
  m_getregentry mbcs_ = Some (Return getregentry) ->
  encoding <> py "cp" ++ str_of_int GetACP ->
  _alias_mbcs (Some GetACP) (Some mbcs_) (py "cp" ++ str_of_int GetACP)
  = Return (Some getregentry)
  /\ _alias_mbcs (Some GetACP) (Some mbcs_) encoding = Return None
  /\ _alias_mbcs (Some GetACP) (Some mbcs_) (py "mbcs") = Return None
  /\ (forall name, _alias_mbcs None (Some mbcs_) name = Return None)
  /\ (forall name, _alias_mbcs (Some GetACP) None name = Return None)
  /\ (forall platform,
        registered platform
        = if bool_decide (platform = py "win32")
          then [Search_function; Alias_mbcs] else [Search_function]).
Proof.
  intros Hattr Hne. unfold _alias_mbcs.
  split; [| split; [| split; [| split; [| split]]]].
  - rewrite bool_decide_eq_true_2 by reflexivity. rewrite Hattr. reflexivity.
  - rewrite bool_decide_eq_false_2 by exact Hne. reflexivity.
  - rewrite bool_decide_eq_false_2 by apply mbcs_is_no_code_page.
    reflexivity.
  - reflexivity.
  - intros name. destruct (bool_decide _); reflexivity.
  - intros platform. unfold registered.
    destruct (bool_decide _); reflexivity.
Qed.

Lemma alias_mbcs_code_page_witness :
  _alias_mbcs (Some 1252) (Some mbcs) (py "cp" ++ str_of_int 1252)
  = Return (Some (CodecInfo [PyCallable 10; PyCallable 11; PyCallable 12;
                             PyCallable 13; PyCallable 14; PyCallable 15;
                             PyStr (py "mbcs")]))
  /\ _alias_mbcs (Some 1252) (Some mbcs) (py "cp1251") = Return None
  /\ _alias_mbcs (Some 1252) (Some mbcs) (py "mbcs") = Return None
  /\ (forall name, _alias_mbcs None (Some mbcs) name = Return None)
  /\ (forall name, _alias_mbcs (Some 1252) None name = Return None)
  /\ (forall platform,
        registered platform
        = if bool_decide (platform = py "win32")
          then [Search_function; Alias_mbcs] else [Search_function]).
Proof.
  apply (alias_mbcs_code_page 1252 mbcs).
  - reflexivity.
  - vm_compute. discriminate.
Defined.

(** C4, refuted as stated: with active code page 1252 the hook returns
    nothing for "mbcs" and returns the [mbcs] entry for "cp1252". *)
Lemma alias_mbcs_not_for_mbcs :
  _alias_mbcs (Some 1252) (Some mbcs) (py "mbcs") = Return None
  /\ _alias_mbcs (Some 1252) (Some mbcs) (py "cp1252")
     = Return (Some (CodecInfo [PyCallable 10; PyCallable 11; PyCallable 12;
                                PyCallable 13; PyCallable 14; PyCallable 15;
                                PyStr (py "mbcs")]))
  /\ py "cp1252" <> py "mbcs".
Proof. vm_compute. repeat split. discriminate. Qed.

(** ** Further properties of normalize_encoding *)

(** X1: the normalized name never starts with an underscore, whatever the
    input, non-ASCII characters included. *)
Theorem normalize_encoding_no_leading_underscore (isalnum : N -> bool) s :
  (forall c, isascii c = true -> isalnum c = ascii_isalnum c) ->
  exists out,
    normalize_encoding isalnum (Str s) = Return out
    /\ forall b, out <> UNDERSCORE :: b.
Proof.
  intros Hal. exists (normalize_str isalnum s). split; [reflexivity |].
  apply normalize_loop_head; [apply isalnum_underscore, Hal | discriminate].
Qed.

Lemma normalize_encoding_no_leading_underscore_witness :
  exists out,
    normalize_encoding isalnum_latin1 (Str [45; 233; 45; 97]) = Return out
    /\ forall b, out <> UNDERSCORE :: b.
Proof.
  exact (normalize_encoding_no_leading_underscore isalnum_latin1
           [45; 233; 45; 97] isalnum_latin1_ascii).
Defined.

(** X2: for a name whose alphanumeric characters are all ASCII, the
    normalized name does not end with an underscore and has no two
    underscores side by side. *)
Theorem normalize_encoding_single_underscores (isalnum : N -> bool) s :
  (forall c, isascii c = true -> isalnum c = ascii_isalnum c) ->
  Forall (fun c => isalnum c = true -> isascii c = true) s ->
  exists out,
    normalize_encoding isalnum (Str s) = Return out
    /\ (forall a, out <> a ++ [UNDERSCORE])
    /\ (forall a b, out <> a ++ UNDERSCORE :: UNDERSCORE :: b).
Proof.
  intros Hal Hs. exists (normalize_str isalnum s). split; [reflexivity |].
  destruct (normalize_loop_tidy isalnum s (isalnum_underscore isalnum Hal)
              Hs [] false eq_refl) as [Hadj Hlast]; [discriminate |].
  fold (normalize_str isalnum s) in Hadj, Hlast. split.
  - intros a E. apply (Hlast (rev a)). rewrite E, rev_app_distr. reflexivity.
  - intros a b E. rewrite E, rev_app_distr in Hadj. cbn [rev] in Hadj.
    rewrite <- !app_assoc in Hadj. cbn [app] in Hadj.
    rewrite no_adjacent_app_false in Hadj. discriminate.
Qed.

Lemma normalize_encoding_single_underscores_witness :
  exists out,
    normalize_encoding isalnum_latin1 (Str (py "__ISO--8859_ _1__"))
    = Return out
    /\ (forall a, out <> a ++ [UNDERSCORE])
    /\ (forall a b, out <> a ++ UNDERSCORE :: UNDERSCORE :: b).
Proof.
  apply (normalize_encoding_single_underscores isalnum_latin1
           (py "__ISO--8859_ _1__") isalnum_latin1_ascii).
  repeat (constructor; [intros _; reflexivity |]). constructor.
Defined.

(** X3: the normalized name is never longer than the name given. *)
Theorem normalize_encoding_length (isalnum : N -> bool) s :
  exists out,
    normalize_encoding isalnum (Str s) = Return out
    /\ (length out <= length s)%nat.
Proof.
  exists (normalize_str isalnum s). split; [reflexivity |].
  pose proof (normalize_loop_length isalnum s [] false) as H.
  unfold normalize_str. cbn [length] in H. lia.
Qed.

(** X4: normalization neither drops, changes nor reorders the ASCII
    alphanumeric characters and the dots: with its underscores taken out,
    the result is the input with everything else taken out. *)
Theorem normalize_encoding_keeps_ascii (isalnum : N -> bool) s :
  (forall c, isascii c = true -> isalnum c = ascii_isalnum c) ->
  exists out,
    normalize_encoding isalnum (Str s) = Return out
    /\ List.filter (fun c => negb (c =? UNDERSCORE)) out
       = List.filter (kept isalnum) s.
Proof.
  intros Hal. exists (normalize_str isalnum s). split; [reflexivity |].
  unfold normalize_str.
  rewrite (normalize_loop_filter isalnum s (isalnum_underscore isalnum Hal)).
  reflexivity.
Qed.

Lemma normalize_encoding_keeps_ascii_witness :
  exists out,
    normalize_encoding isalnum_latin1 (Str (py "Latin-1 (ISO.8859)"))
    = Return out
    /\ List.filter (fun c => negb (c =? UNDERSCORE)) out
       = List.filter (kept isalnum_latin1) (py "Latin-1 (ISO.8859)").
Proof.
  exact (normalize_encoding_keeps_ascii isalnum_latin1
           (py "Latin-1 (ISO.8859)") isalnum_latin1_ascii).
Defined.

(** X5: a name made of ASCII alphanumeric characters and dots only is
    returned as it is. *)
Theorem normalize_encoding_identity (isalnum : N -> bool) s :
  Forall (fun c => kept isalnum c = true) s ->
  normalize_encoding isalnum (Str s) = Return s.
Proof.
  intros Hs. cbn [normalize_encoding]. unfold normalize_str.
  rewrite (normalize_loop_kept isalnum s [] Hs). reflexivity.
Qed.

Lemma normalize_encoding_identity_witness :
  normalize_encoding isalnum_latin1 (Str (py "iso8859.1"))
  = Return (py "iso8859.1").
Proof.
  apply (normalize_encoding_identity isalnum_latin1 (py "iso8859.1")).
  repeat (constructor; [reflexivity |]). constructor.
Defined.

(** X6: which punctuation character stands at a position makes no
    difference: two names that agree except that each may have any
    punctuation where the other has punctuation get the same normalized
    name. *)
Theorem normalize_encoding_punct_blind (isalnum : N -> bool) s s' :
  Forall2 (same_up_to_punct isalnum) s s' ->
  normalize_encoding isalnum (Str s) = normalize_encoding isalnum (Str s').
Proof.
  intros H. cbn [normalize_encoding]. unfold normalize_str.
  rewrite (normalize_loop_same isalnum s s' H). reflexivity.
Qed.

Lemma normalize_encoding_punct_blind_witness :
  normalize_encoding isalnum_latin1 (Str (py "iso-8859_1"))
  = normalize_encoding isalnum_latin1 (Str (py "iso 8859-1")).
Proof.
  apply (normalize_encoding_punct_blind isalnum_latin1 (py "iso-8859_1")
           (py "iso 8859-1")).
  repeat (constructor;
          [first [left; reflexivity | right; split; reflexivity] |]).
  constructor.
Defined.

(** X7: a run of punctuation counts as one punctuation character, wherever
    it stands in the name. *)
Theorem normalize_encoding_collapses_runs (isalnum : N -> bool) a ps p b :
  Forall (fun c => is_punct isalnum c = true) ps ->
  ps <> [] ->
  is_punct isalnum p = true ->
  normalize_encoding isalnum (Str (a ++ ps ++ b))
  = normalize_encoding isalnum (Str (a ++ p :: b)).
Proof.
  intros Hps Hne Hp. cbn [normalize_encoding]. unfold normalize_str.
  rewrite !normalize_loop_app.
  destruct (normalize_loop isalnum ([], false) a) as [chars punct].
  rewrite (normalize_loop_punct_run isalnum ps chars punct Hps Hne).
  rewrite normalize_loop_cons, normalize_step_cases.
  unfold is_punct in Hp. apply negb_true_iff in Hp. rewrite Hp. reflexivity.
Qed.

Lemma normalize_encoding_collapses_runs_witness :
  normalize_encoding isalnum_latin1 (Str (py "utf" ++ py " -;# " ++ py "8"))
  = normalize_encoding isalnum_latin1 (Str (py "utf" ++ 45 :: py "8")).
Proof.
  apply (normalize_encoding_collapses_runs isalnum_latin1 (py "utf")
           (py " -;# ") 45 (py "8")).
  - repeat (constructor; [reflexivity |]). constructor.
  - discriminate.
  - reflexivity.
Defined.

(** X8: punctuation before the first and after the last retained character
    is ignored. *)
Theorem normalize_encoding_trims (isalnum : N -> bool) ps s :
  Forall (fun c => is_punct isalnum c = true) ps ->
  normalize_encoding isalnum (Str (ps ++ s)) = normalize_encoding isalnum (Str s)
  /\ normalize_encoding isalnum (Str (s ++ ps))
     = normalize_encoding isalnum (Str s).
Proof.
  intros Hps. cbn [normalize_encoding]. unfold normalize_str.
  rewrite !normalize_loop_app. split; f_equal.
  - destruct ps as [| c ps']; [reflexivity |].
    rewrite (normalize_loop_punct_run isalnum (c :: ps') [] false Hps)
      by discriminate.
    apply normalize_loop_empty_flag.
  - destruct (normalize_loop isalnum ([], false) s) as [chars punct].
    apply (normalize_loop_punct isalnum ps chars punct Hps).
Qed.

Lemma normalize_encoding_trims_witness :
  normalize_encoding isalnum_latin1 (Str (py " (" ++ py "cp-1252"))
  = normalize_encoding isalnum_latin1 (Str (py "cp-1252"))
  /\ normalize_encoding isalnum_latin1 (Str (py "cp-1252" ++ py " ("))
     = normalize_encoding isalnum_latin1 (Str (py "cp-1252")).
Proof.
  apply (normalize_encoding_trims isalnum_latin1 (py " (") (py "cp-1252")).
  repeat (constructor; [reflexivity |]). constructor.
Defined.

(** X9: a [bytes] name with a byte above 127 raises [UnicodeDecodeError];
    any other [bytes] name gets the normalized name of the [str] with the
    same code points, and that result normalizes to itself. *)
Theorem normalize_encoding_bytes (isalnum : N -> bool) b :
  (forall c, isascii c = true -> isalnum c = ascii_isalnum c) ->
  (Forall (fun x => Byte.to_N x < 128) b ->
   exists out,
     normalize_encoding isalnum (Bytes b) = Return out
     /\ normalize_encoding isalnum (Str (List.map Byte.to_N b)) = Return out
     /\ normalize_encoding isalnum (Str out) = Return out)
  /\ (~ Forall (fun x => Byte.to_N x < 128) b ->
      normalize_encoding isalnum (Bytes b) = Raise UnicodeDecodeError).
Proof.
  intros Hal. destruct (str_ascii_spec b) as [Hok Hbad]. split.
  - intros Hb. destruct (Hok Hb) as [Hdec Hasc].
    exists (normalize_str isalnum (List.map Byte.to_N b)).
    cbn [normalize_encoding]. rewrite Hdec.
    split; [reflexivity |]. split; [reflexivity |]. f_equal.
    assert (Hs : Forall (fun c => isalnum c = true -> isascii c = true)
                   (List.map Byte.to_N b)).
    { apply List.Forall_forall. intros c Hc _.
      apply (proj1 (forallb_forall _ _) Hasc), Hc. }
    pose proof (normalize_loop_stable isalnum Hal _ [] false Hs eq_refl) as H.
    unfold stable in H. unfold normalize_str at 1.
    fold (normalize_str isalnum (List.map Byte.to_N b)) in H.
    rewrite H. reflexivity.
  - intros Hb. cbn [normalize_encoding]. rewrite (Hbad Hb). reflexivity.
Qed.

Lemma normalize_encoding_bytes_witness :
  exists out,
    normalize_encoding isalnum_latin1 (Bytes [x55; x54; x46; x2d; x38]%byte)
    = Return out
    /\ normalize_encoding isalnum_latin1
         (Str (List.map Byte.to_N [x55; x54; x46; x2d; x38]%byte))
       = Return out
    /\ normalize_encoding isalnum_latin1 (Str out) = Return out.
Proof.
  apply (proj1 (normalize_encoding_bytes isalnum_latin1
                  [x55; x54; x46; x2d; x38]%byte isalnum_latin1_ascii)).
  repeat (constructor; [reflexivity |]). constructor.
Defined.

(** ** Further properties of search_function *)

Lemma import_first_events imp ms :
  exists r evs,
    (forall st, import_first imp ms st = (r, add_log st evs))
    /\ Forall (fun ev => exists m,
                 ev = import_of m /\ In m ms /\ usable m = true) evs
    /\ (length evs <= length ms)%nat
    /\ (forall e, r = Raise e ->
          e <> ImportError
          /\ exists m, In m ms /\ imp (py "encodings." ++ m) = Raise e)
    /\ (forall modname mod_, r = Return (Some (modname, mod_)) ->
          In modname ms /\ usable modname = true
          /\ imp (py "encodings." ++ modname) = Return mod_).
Proof.
  induction ms as [| m ms (r & evs & IH & Hev & Hlen & Hraise & Hload)].
  - exists (Return None), [].
    split; [| split; [| split; [| split]]]; try discriminate.
    + intros st. cbn. rewrite add_log_nil. reflexivity.
    + constructor.
    + cbn. lia.
  - assert (Hev' : Forall (fun ev => exists m0,
                      ev = import_of m0 /\ In m0 (m :: ms)
                      /\ usable m0 = true) evs).
    { eapply Forall_impl; [exact Hev |].
      intros ev (m0 & ? & ? & ?). exists m0. auto using in_cons. }
    assert (Hraise' : forall e, r = Raise e ->
              e <> ImportError
              /\ exists m0, In m0 (m :: ms)
                            /\ imp (py "encodings." ++ m0) = Raise e).
    { intros e He. destruct (Hraise e He) as (? & m0 & ? & ?).
      split; [assumption |]. exists m0. auto using in_cons. }
    assert (Hload' : forall modname mod_,
              r = Return (Some (modname, mod_)) ->
              In modname (m :: ms) /\ usable modname = true
              /\ imp (py "encodings." ++ modname) = Return mod_).
    { intros modname mod_ He. destruct (Hload _ _ He) as (? & ? & ?).
      auto using in_cons. }
    cbn [import_first].
    destruct (negb (nonempty m) || existsb (N.eqb DOT) m) eqn:Hskip.
    { exists r, evs.
      split; [exact IH | split; [exact Hev' | split; [cbn; lia | split]]];
        assumption. }
    assert (Hus : usable m = true).
    { unfold usable. apply orb_false_iff in Hskip as [H1 H2].
      apply negb_false_iff in H1. rewrite H1, H2. reflexivity. }
    assert (Hone : Forall (fun ev => exists m0,
                      ev = import_of m0 /\ In m0 (m :: ms)
                      /\ usable m0 = true) [import_of m]).
    { constructor; [| constructor]. exists m. auto using in_eq. }
    unfold try_import, bind, emit, ret, raise.
    destruct (imp (py "encodings." ++ m)) as [md | e] eqn:Himp.
    + exists (Return (Some (m, md))), [import_of m].
      split; [reflexivity | split; [exact Hone | split; [cbn; lia | split]]].
      * discriminate.
      * intros modname mod_ [= <- <-]. auto using in_eq.
    + assert (Hdec : e = ImportError \/ e <> ImportError)
        by (destruct e; first [left; reflexivity | right; discriminate]).
      destruct Hdec as [-> | Hne].
      * exists r, (import_of m :: evs).
        split; [| split; [| split; [cbn; lia | split]]]; try assumption.
        -- intros st. rewrite IH, add_log_app. reflexivity.
        -- constructor; [| exact Hev']. exists m. auto using in_eq.
      * exists (Raise e), [import_of m].
        split; [| split; [exact Hone | split; [cbn; lia | split]]].
        -- intros st. destruct e; try reflexivity. congruence.
        -- intros e' [= <-]. split; [exact Hne |].
           exists m. auto using in_eq.
        -- discriminate.
Qed.


Lemma add_log_inj st a b : add_log st a = add_log st b -> a = b.
Proof.
  unfold add_log. intros [= H]. apply app_inv_head in H. exact H.
Qed.

Lemma modnames_of_length aliases norm_encoding :
  (length (modnames_of aliases norm_encoding) <= 2)%nat.
Proof. unfold modnames_of. destruct (py_or _ _); cbn; lia. Qed.

Lemma import_first_none imp ms :
  (forall n, imp n = Raise ImportError) ->
  forall st,
    import_first imp ms st
    = (Return None,
       add_log st (List.map import_of (List.filter usable ms))).
Proof.
  intros Himp. induction ms as [| m ms IH]; intros st.
  - cbn. rewrite add_log_nil. reflexivity.
  - cbn [List.filter]. destruct (usable m) eqn:Hm.
    + cbn [import_first]. unfold usable in Hm.
      apply andb_true_iff in Hm as [-> Hdot]. apply negb_true_iff in Hdot.
      rewrite Hdot. cbn [negb orb].
      unfold try_import, bind, emit, ret. rewrite Himp.
      rewrite IH, add_log_app. reflexivity.
    + rewrite import_first_skip by exact Hm. apply IH.
Qed.

(** X10: a resolution never removes or overwrites an entry of the cache,
    and the only key it may add is the name it was given. *)
Theorem search_function_cache_grows isalnum imp encoding st res st' :
  search_function isalnum imp encoding st = (res, st') ->
  (forall k v, _cache st !! k = Some v -> _cache st' !! k = Some v)
  /\ (forall k, k <> encoding -> _cache st' !! k = _cache st !! k).
Proof. apply search_function_cache_frame. Qed.

Lemma search_function_cache_grows_witness :
  (forall k v,
     _cache (initial []) !! k = Some v ->
     _cache (snd (search_function isalnum_latin1 site_modules (py "legacy")
                    (initial []))) !! k = Some v)
  /\ (forall k,
        k <> py "legacy" ->
        _cache (snd (search_function isalnum_latin1 site_modules
                       (py "legacy") (initial []))) !! k
        = _cache (initial []) !! k).
Proof.
  apply (search_function_cache_grows isalnum_latin1 site_modules
           (py "legacy") (initial [])
           (fst (search_function isalnum_latin1 site_modules (py "legacy")
                   (initial [])))).
  vm_compute. reflexivity.
Defined.

(** X11: a resolution never removes or changes an alias; it can only add
    aliases, and only when it returns a descriptor. *)
Theorem search_function_aliases_grow isalnum imp encoding st res st' :
  search_function isalnum imp encoding st = (res, st') ->
  (forall k v, _aliases st !! k = Some v -> _aliases st' !! k = Some v)
  /\ ((forall entry, res <> Return (Some entry)) ->
      _aliases st' = _aliases st).
Proof.
  intros H.
  apply search_function_paths in H
    as [(entry & _ & _ & ->) | (_ & r & evs & _ & H)]; [auto |].
  destruct r as [[[modname mod_] |] | e];
    [destruct (m_getregentry mod_) as [[g | e] |];
     [destruct (check_entry mod_ g) as [entry | e] | |] | |];
    try (destruct H as [_ ->]; auto).
  destruct H as (_ & H).
  destruct (m_getaliases mod_) as [[l | e] |].
  - destruct H as (-> & (Hold & _) & _). split; [exact Hold |].
    intros Hn. destruct (Hn entry). reflexivity.
  - destruct H as (_ & -> & _). auto.
  - destruct H as (_ & -> & _). auto.
Qed.

Lemma search_function_aliases_grow_witness :
  (forall k v,
     _aliases (initial [(py "u8", py "utf_8")]) !! k = Some v ->
     _aliases (snd (search_function isalnum_latin1 site_modules (py "plain")
                      (initial [(py "u8", py "utf_8")]))) !! k = Some v)
  /\ ((forall entry,
         fst (search_function isalnum_latin1 site_modules (py "plain")
                (initial [(py "u8", py "utf_8")]))
         <> Return (Some entry)) ->
      _aliases (snd (search_function isalnum_latin1 site_modules (py "plain")
                       (initial [(py "u8", py "utf_8")])))
      = _aliases (initial [(py "u8", py "utf_8")])).
Proof.
  apply (search_function_aliases_grow isalnum_latin1 site_modules
           (py "plain") (initial [(py "u8", py "utf_8")])).
  vm_compute. reflexivity.
Defined.

Lemma import_first_facts imp ms r evs :
  (forall s, import_first imp ms s = (r, add_log s evs)) ->
  Forall (fun ev => exists m,
            ev = import_of m /\ In m ms /\ usable m = true) evs
  /\ (length evs <= length ms)%nat
  /\ (forall e, r = Raise e ->
        e <> ImportError
        /\ exists m, In m ms /\ imp (py "encodings." ++ m) = Raise e)
  /\ (forall modname mod_, r = Return (Some (modname, mod_)) ->
        In modname ms /\ usable modname = true
        /\ imp (py "encodings." ++ modname) = Return mod_).
Proof.
  intros H. destruct (import_first_events imp ms) as (r' & evs' & Heq & F).
  specialize (H (initial [])). rewrite Heq in H. injection H as <- <-.
  exact F.
Qed.

Lemma filter_imports evs :
  Forall (fun ev => exists m : pystr, ev = import_of m) evs ->
  List.filter is_import evs = evs.
Proof.
  induction 1 as [| ev evs (m & ->) _ IH]; [reflexivity |].
  cbn. rewrite IH. reflexivity.
Qed.

(** X13: whatever the name and the alias table, a resolution imports only
    from inside the package: each import it makes is of
    "encodings." followed by a non-empty candidate without a dot, and it
    makes at most two. *)
Theorem search_function_imports_guarded isalnum imp encoding st res st' :
  search_function isalnum imp encoding st = (res, st') ->
  exists evs,
    log st' = log st ++ evs
    /\ Forall (fun ev => is_import ev = true ->
                 exists m, ev = import_of m /\ usable m = true) evs
    /\ (length (List.filter is_import evs) <= 2)%nat.
Proof.
  intros H.
  apply search_function_paths in H
    as [(entry & _ & _ & ->) | (_ & r & evs & Hspec & H)].
  { exists []. rewrite app_nil_r. repeat split; [constructor | cbn; lia]. }
  destruct (import_first_facts _ _ _ _ Hspec) as (Hev & Hlen & _).
  pose proof (modnames_of_length (_aliases st)
                (normalize_str isalnum encoding)) as Hms.
  assert (Hall : forall extra,
            Forall (fun ev => is_import ev = false) extra ->
            Forall (fun ev => is_import ev = true ->
                      exists m, ev = import_of m /\ usable m = true)
              (evs ++ extra)
            /\ (length (List.filter is_import (evs ++ extra)) <= 2)%nat).
  { intros extra Hextra. split.
    - apply Forall_app_2.
      + eapply Forall_impl; [exact Hev |].
        intros ev (m & -> & _ & Hm) _. exists m. auto.
      + eapply Forall_impl; [exact Hextra |]. intros ev -> [=].
    - rewrite List.filter_app, filter_imports.
      + replace (List.filter is_import extra) with (@nil event).
        * rewrite app_nil_r. lia.
        * symmetry. induction Hextra as [| ev extra Hf _ IH];
            [reflexivity |]. cbn. rewrite Hf. exact IH.
      + eapply Forall_impl; [exact Hev |].
        intros ev (m & -> & _). exists m. reflexivity. }
  assert (Hnil := Hall [] (List.Forall_nil _)). rewrite app_nil_r in Hnil.
  destruct r as [[[modname mod_] |] | e];
    [destruct (m_getregentry mod_) as [[g | e] |];
     [destruct (check_entry mod_ g) as [entry | e] | |] | |];
    try (destruct H as [_ ->]; exists evs; cbn; tauto).
  - destruct H as (_ & H).
    destruct (m_getaliases mod_) as [[l | e] |];
      destruct H as (_ & _ & ->);
      eexists; (split; [reflexivity |]); apply Hall;
      repeat constructor.
  - destruct H as [_ ->]. eexists. split; [reflexivity |].
    apply Hall. repeat constructor.
  - destruct H as [_ ->]. eexists. split; [reflexivity |].
    apply Hall. repeat constructor.
Qed.

Lemma search_function_imports_guarded_witness :
  exists evs,
    log (snd (search_function isalnum_latin1 site_modules (py "os.path")
                (initial [(py "os.path", py "../x"); (py "os_path", py "")])))
    = log (initial [(py "os.path", py "../x"); (py "os_path", py "")])
        ++ evs
    /\ Forall (fun ev => is_import ev = true ->
                 exists m, ev = import_of m /\ usable m = true) evs
    /\ (length (List.filter is_import evs) <= 2)%nat.
Proof.
  apply (search_function_imports_guarded isalnum_latin1 site_modules
           (py "os.path")
           (initial [(py "os.path", py "../x"); (py "os_path", py "")])
           (fst (search_function isalnum_latin1 site_modules (py "os.path")
                   (initial [(py "os.path", py "../x");
                             (py "os_path", py "")])))).
  vm_compute. reflexivity.
Defined.





(** X15: when no candidate can be imported, an uncached name resolves to
    [None] without an error: each usable candidate is tried once, in
    order, and [None] is stored in the cache under the name. *)
Theorem search_function_not_found isalnum imp encoding st :
  _cache st !! encoding = None ->
  (forall n, imp n = Raise ImportError) ->
  search_function isalnum imp encoding st
  = (Return None,
     with_cache
       (add_log st
          (List.map import_of
             (List.filter usable
                (modnames_of (_aliases st)
                   (normalize_str isalnum encoding)))))
       encoding None).
Proof.
  intros Hmiss Himp. unfold search_function. rewrite Hmiss.
  unfold bind, lift. cbn [normalize_encoding].
  rewrite (import_first_none imp _ Himp). reflexivity.
Qed.

Lemma search_function_not_found_witness :
  search_function isalnum_latin1 (fun _ => Raise ImportError)
    (py "Latin-1") (initial [(py "Latin_1", py "iso8859_1")])
  = (Return None,
     with_cache
       (add_log (initial [(py "Latin_1", py "iso8859_1")])
          [import_of (py "iso8859_1"); import_of (py "Latin_1")])
       (py "Latin-1") None).
Proof.
  apply (search_function_not_found isalnum_latin1
           (fun _ => Raise ImportError) (py "Latin-1")
           (initial [(py "Latin_1", py "iso8859_1")])).
  - reflexivity.
  - reflexivity.
Defined.

(** X16: a name without any alphanumeric character or dot normalizes to
    the empty module name, which is never imported: unless the alias
    table has an entry for the empty name, the resolution stores [None]
    and returns it without a single import. *)
Theorem search_function_punct_only isalnum imp encoding st :
  _cache st !! encoding = None ->
  Forall (fun c => is_punct isalnum c = true) encoding ->
  _aliases st !! [] = None ->
  search_function isalnum imp encoding st
  = (Return None, with_cache st encoding None).
Proof.
  intros Hmiss Hp Hal. unfold search_function. rewrite Hmiss.
  unfold bind, lift. cbn [normalize_encoding].
  assert (Hn : normalize_str isalnum encoding = [])
    by apply (normalize_loop_punct isalnum encoding [] false Hp).
  rewrite Hn. unfold modnames_of. cbn [replace List.map].
  rewrite Hal. reflexivity.
Qed.

Lemma search_function_punct_only_witness :
  search_function isalnum_latin1 site_modules (py "  -;#") (initial [])
  = (Return None, with_cache (initial []) (py "  -;#") None).
Proof.
  apply (search_function_punct_only isalnum_latin1 site_modules
           (py "  -;#") (initial [])).
  - reflexivity.
  - repeat (constructor; [reflexivity |]). constructor.
  - reflexivity.
Defined.

Lemma CodecInfo_new_returns args e :
  CodecInfo_new args = Return e ->
  (2 <= length args <= 7)%nat
  /\ e = CodecInfo (args ++ repeat PyNone (7 - length args)).
Proof.
  unfold CodecInfo_new.
  destruct ((2 <=? length args) && (length args <=? 7))%nat eqn:Hlen;
    [| discriminate].
  intros [= <-]. apply andb_true_iff in Hlen as [H2 H7].
  apply Nat.leb_le in H2, H7. auto.
Qed.

Lemma optional_callable_checks o :
  negb (is_None o) && negb (callable o) = negb (optional_callable o).
Proof. destruct o; reflexivity. Qed.

Lemma guarded_optional_elim n len o :
  (n <? len)%nat && negb (is_None o) && negb (callable o) = false ->
  (n < len)%nat -> optional_callable o = true.
Proof.
  intros H Hlt. apply Nat.ltb_lt in Hlt. rewrite Hlt in H.
  destruct o; first [reflexivity | discriminate].
Qed.


(** What passing the checks of [check_entry] says of a plain tuple, and
    the descriptor built from it. *)
Lemma check_entry_sound mod_ items e :
  check_entry mod_ (PyTuple items) = Return e ->
  (4 <= length items <= 7)%nat
  /\ callable (item items 0) = true
  /\ callable (item items 1) = true
  /\ (forall i, (2 <= i < 6)%nat -> (i < length items)%nat ->
        optional_callable (item items i) = true)
  /\ exists members,
       e = CodecInfo members /\ length members = 7%nat
       /\ firstn (length items) members = items.
Proof.
  unfold check_entry.
  destruct ((4 <=? length items) && (length items <=? 7))%nat eqn:Hlen;
    [| discriminate].
  apply andb_true_iff in Hlen as [H4 H7]. apply Nat.leb_le in H4, H7.
  cbn [negb].
  match goal with
  | |- (if ?b then _ else _) = _ -> _ => destruct b eqn:Hbad; [discriminate |]
  end.
  apply orb_false_iff in Hbad as [Hbad Hi5].
  apply orb_false_iff in Hbad as [Hbad Hi4].
  apply orb_false_iff in Hbad as [Hbad Hi3].
  apply orb_false_iff in Hbad as [Hbad Hi2].
  apply orb_false_iff in Hbad as [Hi0 Hi1].
  apply negb_false_iff in Hi0, Hi1.
  rewrite optional_callable_checks in Hi2, Hi3.
  apply negb_false_iff in Hi2, Hi3.
  intros Hbuild.
  split; [lia |]. split; [assumption |]. split; [assumption |]. split.
  { intros i Hi Hlt.
    assert (Hcase : (i = 2 \/ i = 3 \/ i = 4 \/ i = 5)%nat) by lia.
    destruct Hcase as [-> | [-> | [-> | ->]]]; try assumption.
    - apply (guarded_optional_elim _ _ _ Hi4 Hlt).
    - apply (guarded_optional_elim _ _ _ Hi5 Hlt). }
  destruct ((length items <? 7)%nat || is_None (item items 6)) eqn:Hpad.
  - destruct (split_dot_1 (m_name mod_)) as [tail | e']; [| discriminate].
    apply CodecInfo_new_returns in Hbuild as [Hn ->].
    rewrite !length_app, repeat_length in Hn. cbn [length] in Hn.
    eexists. split; [reflexivity |].
    rewrite !length_app, repeat_length. cbn [length].
    replace (7 - (length items + (6 - length items + 1)))%nat with 0%nat
      by lia.
    cbn [repeat]. rewrite app_nil_r.
    split; [cbn [length]; lia |].
    rewrite firstn_app, Nat.sub_diag, firstn_all. cbn [firstn].
    apply app_nil_r.
  - apply CodecInfo_new_returns in Hbuild as [Hn ->].
    apply orb_false_iff in Hpad as [Hlen7 _]. apply Nat.ltb_ge in Hlen7.
    assert (Hl : length items = 7%nat) by lia.
    eexists. split; [reflexivity |]. rewrite Hl. cbn [Nat.sub repeat].
    rewrite app_nil_r. split; [exact Hl |].
    rewrite <- Hl. apply firstn_all.
Qed.


(** X17: a descriptor obtained from a plain tuple has passed every check:
    the tuple had 4 to 7 members, its first two were callable, its third
    to sixth were [None] or callable; the descriptor has exactly seven
    members and starts with the members of the tuple. *)
Theorem search_function_validated
    isalnum imp encoding st modname mod_ st1 items e :
  _cache st !! encoding = None ->
  import_first imp (modnames_of (_aliases st) (normalize_str isalnum encoding))
    st = (Return (Some (modname, mod_)), st1) ->
  m_getregentry mod_ = Some (Return (PyTuple items)) ->
  fst (search_function isalnum imp encoding st) = Return (Some e) ->
  (4 <= length items <= 7)%nat
  /\ callable (item items 0) = true
  /\ callable (item items 1) = true
  /\ (forall i, (2 <= i < 6)%nat -> (i < length items)%nat ->
        optional_callable (item items i) = true)
  /\ exists members,
       e = CodecInfo members /\ length members = 7%nat
       /\ firstn (length items) members = items.
Proof.
  intros Hmiss Hload Hattr Hres.
  pose proof (search_function_loaded _ _ _ _ _ _ _ Hmiss Hload) as H.
  rewrite Hattr in H.
  destruct (check_entry mod_ (PyTuple items)) as [entry | e'] eqn:Hchk.
  - destruct H as [_ H]. rewrite H in Hres.
    assert (He : e = entry).
    { destruct (m_getaliases mod_) as [[l | e'] |];
        [| destruct e' |]; congruence. }
    subst e. apply (check_entry_sound mod_ items entry Hchk).
  - rewrite H in Hres. discriminate.
Qed.

Lemma search_function_validated_witness :
  (4 <= length [PyCallable 0; PyCallable 1; PyNone; PyNone] <= 7)%nat
  /\ callable (item [PyCallable 0; PyCallable 1; PyNone; PyNone] 0) = true
  /\ callable (item [PyCallable 0; PyCallable 1; PyNone; PyNone] 1) = true
  /\ (forall i, (2 <= i < 6)%nat ->
        (i < length [PyCallable 0; PyCallable 1; PyNone; PyNone])%nat ->
        optional_callable
          (item [PyCallable 0; PyCallable 1; PyNone; PyNone] i) = true)
  /\ exists members,
       CodecInfo [PyCallable 0; PyCallable 1; PyNone; PyNone; PyNone;
                  PyNone; PyStr (py "legacy")]
       = CodecInfo members
       /\ length members = 7%nat
       /\ firstn (length [PyCallable 0; PyCallable 1; PyNone; PyNone])
            members
          = [PyCallable 0; PyCallable 1; PyNone; PyNone].
Proof.
  apply (search_function_validated isalnum_latin1 site_modules
           (py "legacy") (initial []) (py "legacy") legacy
           (add_log (initial []) [import_of (py "legacy")])).
  - reflexivity.
  - vm_compute. reflexivity.
  - reflexivity.
  - vm_compute. reflexivity.
Defined.



(** X19: when a resolution returns a descriptor from a module that
    declares aliases, every declared alias that had no target yet points
    to the candidate name that loaded, every alias that had a target
    keeps it, and nothing else is added; a later resolution of such a new
    alias therefore tries that module first. *)
Theorem search_function_registers_aliases
    isalnum imp encoding st modname mod_ st1 g entry l :
  _cache st !! encoding = None ->
  import_first imp (modnames_of (_aliases st) (normalize_str isalnum encoding))
    st = (Return (Some (modname, mod_)), st1) ->
  m_getregentry mod_ = Some (Return g) ->
  check_entry mod_ g = Return entry ->
  m_getaliases mod_ = Some (Return l) ->
  fst (search_function isalnum imp encoding st) = Return (Some entry)
  /\ registers (_aliases st) l modname
       (_aliases (snd (search_function isalnum imp encoding st)))
  /\ (forall a, In a l -> _aliases st !! a = None ->
        modnames_of (_aliases (snd (search_function isalnum imp encoding st)))
          a
        = [modname; a]).
Proof.
  intros Hmiss Hload Hattr Hchk Hal.
  destruct (search_function isalnum imp encoding st) as [res st'] eqn:H.
  apply search_function_paths in H
    as [(e0 & Hhit & _) | (_ & r & evs & Hspec & H)]; [congruence |].
  destruct (import_first_facts _ _ _ _ Hspec) as (_ & _ & _ & Hfacts).
  rewrite Hspec in Hload. injection Hload as -> _.
  destruct (Hfacts modname mod_ eq_refl) as (_ & Hus & _).
  rewrite Hattr, Hchk, Hal in H. destruct H as (_ & -> & Hreg & _).
  cbn [fst snd]. split; [reflexivity |]. split; [exact Hreg |].
  intros a Hin Hnone. destruct Hreg as (_ & Hnew & _).
  unfold modnames_of, py_or. rewrite (Hnew a Hnone Hin).
  unfold usable in Hus. apply andb_true_iff in Hus as [-> _]. reflexivity.
Qed.

Lemma search_function_registers_aliases_witness :
  fst (search_function isalnum_latin1 alias_modules (py "ISO-8859-1")
         (initial [(py "ISO_8859_1", py "iso8859_1");
                   (py "l1", py "latin1")]))
  = Return (Some (CodecInfo [PyCallable 0; PyCallable 1; PyNone; PyNone;
                             PyCallable 4; PyCallable 5;
                             PyStr (py "iso8859_1")]))
  /\ registers
       (_aliases (initial [(py "ISO_8859_1", py "iso8859_1");
                           (py "l1", py "latin1")]))
       [py "latin_1"; py "l1"; py "latin_1"] (py "iso8859_1")
       (_aliases
          (snd (search_function isalnum_latin1 alias_modules
                  (py "ISO-8859-1")
                  (initial [(py "ISO_8859_1", py "iso8859_1");
                            (py "l1", py "latin1")]))))
  /\ (forall a,
        In a [py "latin_1"; py "l1"; py "latin_1"] ->
        _aliases (initial [(py "ISO_8859_1", py "iso8859_1");
                           (py "l1", py "latin1")]) !! a = None ->
        modnames_of
          (_aliases
             (snd (search_function isalnum_latin1 alias_modules
                     (py "ISO-8859-1")
                     (initial [(py "ISO_8859_1", py "iso8859_1");
                               (py "l1", py "latin1")]))))
          a
        = [py "iso8859_1"; a]).
Proof.
  apply (search_function_registers_aliases isalnum_latin1 alias_modules
           (py "ISO-8859-1")
           (initial [(py "ISO_8859_1", py "iso8859_1");
                     (py "l1", py "latin1")])
           (py "iso8859_1") iso8859_1
           (add_log (initial [(py "ISO_8859_1", py "iso8859_1");
                              (py "l1", py "latin1")])
              [import_of (py "iso8859_1")])
           (PyTuple [PyCallable 0; PyCallable 1; PyNone; PyNone;
                     PyCallable 4; PyCallable 5])).
  - reflexivity.
  - vm_compute. reflexivity.
  - reflexivity.
  - reflexivity.
  - reflexivity.
Defined.

(** ** Further properties of the win32 hook *)

Lemma py_inj s s' : py s = py s' -> s = s'.
Proof.
  unfold py. intros H.
  apply (f_equal (List.map ascii_of_N)) in H.
  rewrite !List.map_map in H.
  rewrite !(List.map_ext _ (fun a => a) ascii_N_embedding) in H.
  rewrite !List.map_id in H.
  apply (f_equal string_of_list_ascii) in H.
  rewrite !string_of_list_ascii_of_string in H. exact H.
Qed.

Lemma str_of_int_inj n n' : str_of_int n = str_of_int n' -> n = n'.
Proof.
  unfold str_of_int. intros H. apply py_inj in H.
  apply (f_equal NilEmpty.uint_of_string) in H.
  rewrite !NilEmpty.usu in H. injection H as H.
  apply (f_equal N.of_uint) in H.
  rewrite !DecimalN.Unsigned.of_to in H. exact H.
Qed.

(** X20: the hook answers for the active code page only: with active code
    page [n], the name "cp" followed by any other number gets no
    result. *)
Theorem alias_mbcs_other_code_page (n n' : N) encodings_mbcs :
  n' <> n ->
  _alias_mbcs (Some n) encodings_mbcs (py "cp" ++ str_of_int n')
  = Return None.
Proof.
  intros Hne. unfold _alias_mbcs.
  rewrite bool_decide_eq_false_2; [reflexivity |].
  intros H. apply app_inv_head in H. apply str_of_int_inj in H. auto.
Qed.

Lemma alias_mbcs_other_code_page_witness :
  _alias_mbcs (Some 1252) (Some mbcs) (py "cp" ++ str_of_int 125)
  = Return None.
Proof.
  apply (alias_mbcs_other_code_page 1252 125 (Some mbcs)).
  discriminate.
Defined.
